(** * ngx-http-stub-server: a shallow embedding of the stub backend

    Sources embedded here:
    - [projects/ngx-http-stub-server/src/lib/handler.ts]
      ([HttpMethod], [ApiHandler], [handlerBuilder], [responseBuilder]);
    - [projects/ngx-http-stub-server/src/lib/ngx-http-stub-server.ts]
      ([ApiHandlers], [HttpClientStubBackend], [HttpClientStubBackendController]).

    JavaScript objects that the code mutates in place (the state object handed
    to handlers, the [ApiHandlers] registry) live in a heap and are referred to
    by location, so that aliasing between the "current" and the "initial"
    holders of the backend is visible in the model.  [clone] allocates. *)

From Stdlib Require Import ZArith Lia Ascii String.
From stdpp Require Import gmap strings list fin_maps.

(** ** JavaScript values, errors and results *)

(** Plain data carried as response bodies ([unknown] in the source). *)
Local Unset Elimination Schemes.
Inductive JsValue : Type :=
| JUndefined
| JNull
| JBool (b : bool)
| JNumber (n : Z)
| JString (s : string)
| JArray (items : list JsValue)
| JObject (fields : list (string * JsValue)).
Local Set Elimination Schemes.

(** The errors the code can raise.  The first five are the [throw new Error]
    sites of the source, in the order of their messages:
    - [NoHandlerFound]: 'No handler found for this request'
    - [InvalidMethod m]: `Invalid method: ${handler.method}`
    - [StatusNotOk]: "Invalid response. It's not an error but status is not OK"
    - [StatusOk]: "Invalid response. It's an error but status is OK"
    - [InvalidResponse]: `Invalid response. ${stubResponse}`
    [TypeError] is the engine's own error: a property read on [undefined] or
    [null], or a call of something that is not a function. *)
Inductive JsError : Type :=
| NoHandlerFound
| InvalidMethod (m : string)
| StatusNotOk
| StatusOk
| InvalidResponse
| TypeError.

Inductive Result (A : Type) : Type :=
| Return (a : A)
| Throw (e : JsError).
Arguments Return {A} a.
Arguments Throw {A} e.

(** A property read [o[k]] on an object literal whose own properties are the
    finite map [o]: own properties first, then the ones every object literal
    inherits from [Object.prototype], else [undefined]. *)
Inductive Property (A : Type) : Type :=
| Own (a : A)
| Inherited
| Undefined.
Arguments Own {A} a.
Arguments Inherited {A}.
Arguments Undefined {A}.

Definition objectPrototypeKeys : list string :=
  [ "constructor"; "hasOwnProperty"; "isPrototypeOf"; "propertyIsEnumerable";
    "toLocaleString"; "toString"; "valueOf"; "__proto__";
    "__defineGetter__"; "__defineSetter__"; "__lookupGetter__";
    "__lookupSetter__" ].

Definition getProperty {A : Type} (o : gmap string A) (k : string) : Property A :=
  match o !! k with
  | Some a => Own a
  | None => if bool_decide (k ∈ objectPrototypeKeys) then Inherited else Undefined
  end.

(** [Array.prototype.findIndex]: the first index whose element satisfies [p],
    or [-1]. *)
Definition findIndex {A : Type} (p : A → bool) (l : list A) : Z :=
  match list_find (λ a, Is_true (p a)) l with
  | Some (i, _) => Z.of_nat i
  | None => (-1)%Z
  end.

(** [Array.prototype.find]: the first element that satisfies [p], or
    [undefined] (here [None]). *)
Definition find {A : Type} (p : A → bool) (l : list A) : option A :=
  match list_find (λ a, Is_true (p a)) l with
  | Some (_, a) => Some a
  | None => None
  end.

(** ** handler.ts *)

(** [export type HttpMethod = 'HEAD' | 'GET' | ...]: a union of seven string
    literals; [methodName] gives the string each value is at run time. *)
Inductive HttpMethod : Type := HEAD | GET | POST | PUT | DELETE | PATCH | OPTIONS.

Definition methodName (m : HttpMethod) : string :=
  match m with
  | HEAD => "HEAD"
  | GET => "GET"
  | POST => "POST"
  | PUT => "PUT"
  | DELETE => "DELETE"
  | PATCH => "PATCH"
  | OPTIONS => "OPTIONS"
  end.

Definition allMethods : list HttpMethod := [HEAD; GET; POST; PUT; DELETE; PATCH; OPTIONS].

Global Instance HttpMethod_eq_dec : EqDecision HttpMethod.
Proof. solve_decision. Defined.

(** Angular's [HttpRequest] (imported from '@angular/common/http').  Its
    constructor stores [method.toUpperCase()], so the [method] of a request
    holds no lower-case letter; the record carries that fact. *)
Definition isLowerCase (c : ascii) : bool :=
  let n := nat_of_ascii c in (97 <=? n) && (n <=? 122).

Fixpoint hasLowerCase (s : string) : bool :=
  match s with
  | EmptyString => false
  | String c s' => isLowerCase c || hasLowerCase s'
  end.

Record HttpRequest : Type := {
  req_method : string;
  req_url : string;
  req_body : JsValue;
  req_method_upper : hasLowerCase req_method = false
}.

(** What a handler can hand back: an [HttpResponse], an [HttpErrorResponse],
    or (by a cast) anything else.  [Nullish] is [undefined] or [null], on which
    reading [.status] throws; [Foreign status] is any other value that a
    template literal can convert to a string, and [Unprintable status] one
    that it cannot (a symbol, an object without [toString]), each with the
    number its [status] property holds, if it holds one.  A status is a
    JavaScript [number]; only its comparisons with 200 and 300 are used, and it
    is modelled by an integer. *)
Inductive StubResponse : Type :=
| HttpResponse (body : JsValue) (status : Z)
| HttpErrorResponse (error : JsValue) (status : Z)
| Nullish
| Foreign (status : option Z)
| Unprintable (status : option Z).

(** The values [||] treats as false. *)
Definition falsy (v : JsValue) : bool :=
  match v with
  | JUndefined | JNull | JBool false | JNumber 0 | JString EmptyString => true
  | _ => false
  end.

(** Angular's [new HttpResponse({ body, status })]: the constructor stores
    [init.body !== undefined ? init.body : null]. *)
Definition newHttpResponse (body : JsValue) (status : Z) : StubResponse :=
  HttpResponse (match body with JUndefined => JNull | _ => body end) status.

(** Angular's [new HttpErrorResponse({ error, status })]: the constructor
    stores [init.error || null]. *)
Definition newHttpErrorResponse (error : JsValue) (status : Z) : StubResponse :=
  HttpErrorResponse (if falsy error then JNull else error) status.

(** The shape of [responseBuilder] ([typeof responseBuilder]). *)
Record ResponseBuilder : Type := {
  ok : JsValue → Z → StubResponse;
  error : string → Z → StubResponse
}.

(** [export const responseBuilder = { ok: ..., error: ... }] *)
Definition responseBuilder : ResponseBuilder := {|
  ok := λ body status, newHttpResponse body status;
  error := λ body status, newHttpErrorResponse (JString body) status
|}.

Section Handler.
Variable TState : Type.

(** [HandlerFn<TState>].  The handler receives the state object by
    reference and may mutate it in place: the second component of the result
    is the content of that object when the handler returns. *)
Definition HandlerFn : Type :=
  HttpRequest → ResponseBuilder → TState → StubResponse * TState.

(** [export class ApiHandler<TState>] *)
Record ApiHandler : Type := {
  method : HttpMethod;
  url : string;
  handle : HandlerFn
}.
End Handler.
Arguments method {TState} _.
Arguments url {TState} _.
Arguments handle {TState} _.
Arguments Build_ApiHandler {TState} _ _ _.

(** [export const handlerBuilder = { head: ..., get: ..., ... }] *)
Module handlerBuilder.
Section handlerBuilder.
Context {TState : Type}.
Definition head (path : string) (handler : HandlerFn TState) := Build_ApiHandler HEAD path handler.
Definition get (path : string) (handler : HandlerFn TState) := Build_ApiHandler GET path handler.
Definition post (path : string) (handler : HandlerFn TState) := Build_ApiHandler POST path handler.
Definition put (path : string) (handler : HandlerFn TState) := Build_ApiHandler PUT path handler.
Definition delete (path : string) (handler : HandlerFn TState) := Build_ApiHandler DELETE path handler.
Definition patch (path : string) (handler : HandlerFn TState) := Build_ApiHandler PATCH path handler.
Definition options (path : string) (handler : HandlerFn TState) := Build_ApiHandler OPTIONS path handler.
End handlerBuilder.
End handlerBuilder.

(** ** ngx-http-stub-server.ts: [class ApiHandlers<TState>] *)

(** [private handlersByMethod = { HEAD: [], ... }]: an object literal used as
  a map from method name to an array of handlers. *)
Record ApiHandlers (TState : Type) : Type := {
  handlersByMethod : gmap string (list (ApiHandler TState))
}.
Arguments handlersByMethod {TState} _.
Arguments Build_ApiHandlers {TState} _.

Module ApiHandlers.
Section ApiHandlers.
Context {TState : Type}.

(** The object as the field initialiser leaves it: seven empty arrays. *)
Definition empty : ApiHandlers TState :=
  Build_ApiHandlers (list_to_map ((λ m, (methodName m, [])) <$> allMethods)).

(** [put(handler)]; the result is the object after the in-place update. *)
Definition put (handler : ApiHandler TState) (this : ApiHandlers TState)
  : Result (ApiHandlers TState) :=
  match getProperty (handlersByMethod this) (methodName (method handler)) with
  | Undefined => Throw (InvalidMethod (methodName (method handler)))
  | Inherited => Throw TypeError
  | Own handlers =>
      let index := findIndex (λ h, bool_decide (url h = url handler)) handlers in
      if (index =? -1)%Z then
        Return (Build_ApiHandlers
                  (<[methodName (method handler) := handlers ++ [handler]]>
                     (handlersByMethod this)))
      else
        Return (Build_ApiHandlers
                  (<[methodName (method handler) := <[Z.to_nat index := handler]> handlers]>
                     (handlersByMethod this)))
  end.

(** [for (const handler of handlers) { this.put(handler); }] *)
Fixpoint putAll (handlers : list (ApiHandler TState)) (this : ApiHandlers TState)
  : Result (ApiHandlers TState) :=
  match handlers with
  | [] => Return this
  | handler :: rest =>
      match put handler this with
      | Return this' => putAll rest this'
      | Throw e => Throw e
      end
  end.

(** [constructor(handlers)] *)
Definition new (handlers : list (ApiHandler TState)) : Result (ApiHandlers TState) :=
  putAll handlers empty.

(** [match(method, url)]: [Return None] is the source's [undefined]. *)
Definition match_ (this : ApiHandlers TState) (method : string) (url' : string)
  : Result (option (ApiHandler TState)) :=
  match getProperty (handlersByMethod this) method with
  | Undefined => Return None
  | Inherited => Throw TypeError
  | Own handlers => Return (find (λ h, bool_decide (url h = url')) handlers)
  end.
End ApiHandlers.
End ApiHandlers.

(** ** The heap, and the monad of the stateful code *)

Definition loc : Type := nat.

(** The four private fields of [HttpClientStubBackend]; a field holds
    [undefined] ([None]) until [initialize] assigns it, then a reference. *)
Record HttpClientStubBackend : Type := {
  apiHandlers : option loc;
  state : option loc;
  initialState : option loc;
  initialHandlers : option loc
}.

(** [{ type: HttpEventType.Sent }] or a response, as passed to
    [observer.next]. *)
Inductive HttpEvent : Type :=
| Sent
| Response (r : StubResponse).

(** The calls the observer receives: [next], [error] and [complete] from the
    subscriber function, and [error] from [subscribe] itself, with the error
    that the subscriber function threw ([thrown]). *)
Inductive Notification : Type :=
| next (e : HttpEvent)
| error_ (r : StubResponse)
| complete
| thrown (e : JsError).

(** Everything the code can touch: the state objects and the registry objects
    allocated so far (a whole deep-cloned object graph is one cell, since
    [clone] never shares a part of it), the backend instance [this], and the
    calls received so far by the observer. *)
Record World (TState : Type) : Type := {
  states : list TState;
  registries : list (ApiHandlers TState);
  this : HttpClientStubBackend;
  observer : list Notification
}.
Arguments states {TState} _.
Arguments registries {TState} _.
Arguments this {TState} _.
Arguments observer {TState} _.
Arguments Build_World {TState} _ _ _ _.

Section Monad.
Context {TState : Type}.

(** A computation runs in a world and ends by returning or by throwing; what
    it did to the world before throwing stays done. *)
Definition M (A : Type) : Type := World TState → Result A * World TState.

Definition ret {A : Type} (a : A) : M A := λ w, (Return a, w).

Definition throw {A : Type} (e : JsError) : M A := λ w, (Throw e, w).

Definition bind {A B : Type} (m : M A) (k : A → M B) : M B :=
  λ w, match m w with
       | (Return a, w') => k a w'
       | (Throw e, w') => (Throw e, w')
       end.

Definition lift {A : Type} (r : Result A) : M A := λ w, (r, w).

Definition getThis : M HttpClientStubBackend := λ w, (Return (this w), w).

Definition setThis (f : HttpClientStubBackend → HttpClientStubBackend) : M unit :=
  λ w, (Return tt, Build_World (states w) (registries w) (f (this w)) (observer w)).

(** A field used as an object: a property read or a method call through
    [undefined] is a [TypeError]. *)
Definition defined (l : option loc) : M loc :=
  match l with
  | Some l => ret l
  | None => throw TypeError
  end.

(** The content of the object at [l]. *)
Definition readState (l : loc) : M TState :=
  λ w, match states w !! l with
       | Some s => (Return s, w)
       | None => (Throw TypeError, w)
       end.

Definition readRegistry (l : loc) : M (ApiHandlers TState) :=
  λ w, match registries w !! l with
       | Some r => (Return r, w)
       | None => (Throw TypeError, w)
       end.

(** In-place update of the object at [l]. *)
Definition writeState (l : loc) (s : TState) : M unit :=
  λ w, (Return tt, Build_World (<[l := s]> (states w)) (registries w) (this w) (observer w)).

Definition writeRegistry (l : loc) (r : ApiHandlers TState) : M unit :=
  λ w, (Return tt, Build_World (states w) (<[l := r]> (registries w)) (this w) (observer w)).

(** A new object: the next free location. *)
Definition allocState (s : TState) : M loc :=
  λ w, (Return (length (states w)),
        Build_World (states w ++ [s]) (registries w) (this w) (observer w)).

Definition allocRegistry (r : ApiHandlers TState) : M loc :=
  λ w, (Return (length (registries w)),
        Build_World (states w) (registries w ++ [r]) (this w) (observer w)).

(** [clone(x)] for a field [x]: a fresh deep copy of the object, or
    [undefined] for [undefined]. *)
Definition cloneState (l : option loc) : M (option loc) :=
  match l with
  | None => ret None
  | Some l => bind (readState l) (λ s, bind (allocState s) (λ l', ret (Some l')))
  end.

Definition cloneRegistry (l : option loc) : M (option loc) :=
  match l with
  | None => ret None
  | Some l => bind (readRegistry l) (λ r, bind (allocRegistry r) (λ l', ret (Some l')))
  end.

(** A call on the observer. *)
Definition emit (n : Notification) : M unit :=
  λ w, (Return tt, Build_World (states w) (registries w) (this w) (observer w ++ [n])).

End Monad.

Notation "'let*' x ':=' m 'in' k" := (bind m (λ x, k))
  (at level 10, x name, m at level 100, k at level 200, only parsing).
Notation "'run' m 'then' k" := (bind m (λ _, k))
  (at level 10, m at level 100, k at level 200, only parsing).

(** ** ngx-http-stub-server.ts: [class HttpClientStubBackend<TState>] *)

(** [new Observable((observer) => ...)]: the subscriber function, run when the
    observable is subscribed to. *)
Definition Observable (TState : Type) : Type := M (TState := TState) unit.

Definition statusOk (status : option Z) : bool :=
  match status with
  | Some n => (200 <=? n)%Z && (n <? 300)%Z
  | None => false
  end.

Module HttpClientStubBackend.
Section HttpClientStubBackend.
Context {TState : Type}.

(** Assignments to the fields of [this]. *)
Definition setApiHandlers (v : option loc) : M (TState := TState) unit :=
  setThis (λ b, Build_HttpClientStubBackend v (state b) (initialState b) (initialHandlers b)).
Definition setState (v : option loc) : M (TState := TState) unit :=
  setThis (λ b, Build_HttpClientStubBackend (apiHandlers b) v (initialState b) (initialHandlers b)).
Definition setInitialState (v : option loc) : M (TState := TState) unit :=
  setThis (λ b, Build_HttpClientStubBackend (apiHandlers b) (state b) v (initialHandlers b)).
Definition setInitialHandlers (v : option loc) : M (TState := TState) unit :=
  setThis (λ b, Build_HttpClientStubBackend (apiHandlers b) (state b) (initialState b) v).

(** [initialize(newState, handlers)].  The two arguments are the contents of
    the caller's objects at the time of the call; [clone] copies them into
    fresh objects, and [new ApiHandlers] is one more fresh object. *)
Definition initialize (newState : TState) (handlers : list (ApiHandler TState)) : M unit :=
  let* s := allocState newState in
  run setState (Some s) then
  let* s0 := allocState newState in
  run setInitialState (Some s0) then
  let* r := lift (ApiHandlers.new handlers) in
  let* h := allocRegistry r in
  run setApiHandlers (Some h) then
  let* b := getThis in
  let* h0 := cloneRegistry (apiHandlers b) in
  setInitialHandlers h0.

(** [this.apiHandlers.put(handler)]: the registry object is updated in
    place. *)
Definition putHandler (handler : ApiHandler TState) : M unit :=
  let* b := getThis in
  let* l := defined (apiHandlers b) in
  let* r := readRegistry l in
  let* r' := lift (ApiHandlers.put handler r) in
  writeRegistry l r'.

(** [putHandlers(...handlers)] *)
Fixpoint putHandlers (handlers : list (ApiHandler TState)) : M unit :=
  match handlers with
  | [] => ret tt
  | handler :: rest => run putHandler handler then putHandlers rest
  end.

(** [resetHandlers()] *)
Definition resetHandlers : M (TState := TState) unit :=
  let* b := getThis in
  let* h := cloneRegistry (initialHandlers b) in
  setApiHandlers h.

(** [resetState()] *)
Definition resetState : M (TState := TState) unit :=
  let* b := getThis in
  let* s := cloneState (initialState b) in
  setState s.

(** [handler.handle(req, responseBuilder, this.state)]: the handler works on
    the object [this.state] refers to, which holds the handler's changes
    afterwards.  (A handler runs only once [handle] has found it in
    [this.apiHandlers], which [initialize] assigns after [this.state]; a
    handler handed [undefined] as its state is taken to fail on it.) *)
Definition callHandler (handler : ApiHandler TState) (req : HttpRequest) : M StubResponse :=
  let* b := getThis in
  let* l := defined (state b) in
  let* s := readState l in
  run writeState l (snd (handle handler req responseBuilder s)) then
  ret (fst (handle handler req responseBuilder s)).

(** [stubResponse.status]: a [TypeError] on [undefined] and [null]. *)
Definition statusOf (stubResponse : StubResponse) : M (TState := TState) (option Z) :=
  match stubResponse with
  | HttpResponse _ n | HttpErrorResponse _ n => ret (Some n)
  | Foreign n | Unprintable n => ret n
  | Nullish => throw TypeError
  end.

(** The body of the subscriber function of [handle], for the handler that
    [handle] found.  [this.state] is read when the subscriber runs.  The last
    branch builds its message with [`${stubResponse}`], which is itself a
    [TypeError] for a value that cannot be converted to a string. *)
Definition subscriber (handler : ApiHandler TState) (req : HttpRequest) : Observable TState :=
  let* stubResponse := callHandler handler req in
  run emit (next Sent) then
  let* status := statusOf stubResponse in
  match stubResponse with
  | HttpResponse _ _ =>
      if negb (statusOk status) then throw StatusNotOk
      else (run emit (next (Response stubResponse)) then emit complete)
  | HttpErrorResponse _ _ =>
      if statusOk status then throw StatusOk
      else emit (error_ stubResponse)
  | Unprintable _ => throw TypeError
  | Nullish | Foreign _ => throw InvalidResponse
  end.

(** [handle(req)]: the lookup is made at once, the handler runs when the
    returned observable is subscribed to. *)
Definition handle (req : HttpRequest) : M (Observable TState) :=
  let* b := getThis in
  let* l := defined (apiHandlers b) in
  let* r := readRegistry l in
  let* found := lift (ApiHandlers.match_ r (req_method req) (req_url req)) in
  match found with
  | None => throw NoHandlerFound
  | Some handler => ret (subscriber handler req)
  end.

(** [observable.subscribe(observer)] of rxjs: the subscriber function is run;
    an error it throws is caught and handed to [observer.error], and
    [subscribe] returns. *)
Definition subscribe (o : Observable TState) : M unit :=
  λ w, match o w with
       | (Return _, w') => (Return tt, w')
       | (Throw e, w') => emit (thrown e) w'
       end.

(** [handle(req).subscribe(observer)]: what the HTTP client does with the
    observable.  An error thrown by [handle] itself, before there is an
    observable, is not caught. *)
Definition request (req : HttpRequest) : M unit :=
  let* o := handle req in
  subscribe o.

End HttpClientStubBackend.
End HttpClientStubBackend.

(** [class HttpClientStubBackendController<TState>]: each method forwards to
    the backend it was constructed with. *)
Module HttpClientStubBackendController.
Section HttpClientStubBackendController.
Context {TState : Type}.
Definition putHandlers (handlers : list (ApiHandler TState)) : M unit :=
  HttpClientStubBackend.putHandlers handlers.
Definition resetHandlers : M (TState := TState) unit := HttpClientStubBackend.resetHandlers.
Definition resetState : M (TState := TState) unit := HttpClientStubBackend.resetState.
End HttpClientStubBackendController.
End HttpClientStubBackendController.

(** A backend instance just constructed: nothing allocated, no field
    assigned. *)
Definition newWorld (TState : Type) : World TState :=
  Build_World [] [] (Build_HttpClientStubBackend None None None None) [].

(** [setupStubServer(initialState, ...handlers)] *)
Definition setupStubServer {TState : Type} (initialState : TState)
  (handlers : list (ApiHandler TState)) : Result unit * World TState :=
  HttpClientStubBackend.initialize initialState handlers (newWorld TState).

(** ** Registry states and their invariant *)

Section Registry.
Context {TState : Type}.
Implicit Types (r : ApiHandlers TState) (h : ApiHandler TState).
Implicit Types (l : list (ApiHandler TState)) (m : HttpMethod) (k u : string).

(** The array of method [m]. *)
Definition handlersOf r m : list (ApiHandler TState) :=
  default [] (handlersByMethod r !! methodName m).

(** The handlers registered for the pair ([m], [u]), with multiplicity. *)
Definition registeredFor r m u : list (ApiHandler TState) :=
  filter (λ h, method h = m ∧ url h = u) (handlersOf r m).

(** Two handlers compete for the same (method, url) pair. *)
Definition sameKey h h' : Prop := method h = method h' ∧ url h = url h'.

(** The registry states the code can build: the fresh object, then [put]s
    (the constructor, [putHandlers]). *)
Inductive Reachable : ApiHandlers TState → Prop :=
| reachable_empty : Reachable ApiHandlers.empty
| reachable_put h r r' :
    Reachable r → ApiHandlers.put h r = Return r' → Reachable r'.

(** At most one handler per (method, url) pair: two entries of the table with
    the same pair are the same entry. *)
Definition atMostOne r : Prop :=
  ∀ k k' l l' i j h h',
    handlersByMethod r !! k = Some l → handlersByMethod r !! k' = Some l' →
    l !! i = Some h → l' !! j = Some h' → sameKey h h' → k = k' ∧ i = j.

(** What [put] makes of the array it finds under the handler's method. *)
Definition putArray h l : list (ApiHandler TState) :=
  let index := findIndex (λ h0, bool_decide (url h0 = url h)) l in
  if (index =? -1)%Z then l ++ [h] else <[Z.to_nat index := h]> l.

(** The shape every reachable table has. *)
Definition wellFormed r : Prop :=
  (∀ m, is_Some (handlersByMethod r !! methodName m)) ∧
  (∀ k l, handlersByMethod r !! k = Some l →
     ∃ m, k = methodName m ∧ Forall (λ h, method h = m) l ∧ NoDup (url <$> l)).

End Registry.

(** ** Worlds the backend can be in *)

Section Worlds.
Context {TState : Type}.
Implicit Types (w : World TState) (r : ApiHandlers TState) (s : TState).

(** The objects the four fields refer to. *)
Definition currentRegistry w : option (ApiHandlers TState) :=
  l ← apiHandlers (this w); registries w !! l.
Definition currentState w : option TState :=
  l ← state (this w); states w !! l.
Definition initialRegistrySnapshot w : option (ApiHandlers TState) :=
  l ← initialHandlers (this w); registries w !! l.
Definition initialStateSnapshot w : option TState :=
  l ← initialState (this w); states w !! l.

(** [h] is an entry of the table of [r]. *)
Definition entry r (h : ApiHandler TState) : Prop :=
  ∃ k l, handlersByMethod r !! k = Some l ∧ h ∈ l.

(** All the entries of the table of [r]. *)
Definition entries r : list (ApiHandler TState) :=
  kv ← map_to_list (handlersByMethod r); kv.2.

(** What test code and the HTTP client do with a backend once it is
    initialized.  [Request] is [handle] with the subscription made at once;
    [Subscribe] is a later subscription to an observable that some earlier
    [handle] returned, for whichever handler it had found. *)
Inductive Op : Type :=
| PutHandlers (handlers : list (ApiHandler TState))
| ResetHandlers
| ResetState
| Request (req : HttpRequest)
| Subscribe (handler : ApiHandler TState) (req : HttpRequest).

Definition runOp (o : Op) : M (TState := TState) unit :=
  match o with
  | PutHandlers handlers => HttpClientStubBackendController.putHandlers handlers
  | ResetHandlers => HttpClientStubBackendController.resetHandlers
  | ResetState => HttpClientStubBackendController.resetState
  | Request req => HttpClientStubBackend.request req
  | Subscribe handler req =>
      HttpClientStubBackend.subscribe (HttpClientStubBackend.subscriber handler req)
  end.

(** A sequence of operations; an operation that throws leaves the world as it
    was when it threw, and the next one goes on from there. *)
Fixpoint runOps (ops : list Op) w : World TState :=
  match ops with
  | [] => w
  | o :: ops' => runOps ops' (snd (runOp o w))
  end.

(** The worlds reached after [initialize(s0, hs)]: [r0] is the registry
    [initialize] built.  The four fields refer to allocated objects, the
    current and the initial holders to different ones; the initial snapshots
    hold what [initialize] put there; the current registry is one the code can
    build. *)
Record Ready (s0 : TState) (r0 : ApiHandlers TState) w : Prop := {
  ready_apiHandlers : ∃ l r, apiHandlers (this w) = Some l ∧ registries w !! l = Some r ∧ Reachable r;
  ready_state : ∃ l s, state (this w) = Some l ∧ states w !! l = Some s;
  ready_initialState : ∃ l, initialState (this w) = Some l ∧ states w !! l = Some s0;
  ready_initialHandlers : ∃ l, initialHandlers (this w) = Some l ∧ registries w !! l = Some r0;
  ready_state_sep : state (this w) ≠ initialState (this w);
  ready_handlers_sep : apiHandlers (this w) ≠ initialHandlers (this w);
  ready_r0 : Reachable r0
}.

(** Status in the success range [[200, 300)]. *)
Definition inSuccessRange (status : Z) : Prop := (200 ≤ status < 300)%Z.

(** The status a response object carries. *)
Definition responseStatus (r : StubResponse) : option Z :=
  match r with
  | HttpResponse _ n | HttpErrorResponse _ n => Some n
  | Foreign n | Unprintable n => n
  | Nullish => None
  end.

(** The success/error invariant of an outcome. *)
Definition validOutcome (r : StubResponse) : Prop :=
  match r with
  | HttpResponse _ n => inSuccessRange n
  | HttpErrorResponse _ n => ¬ inSuccessRange n
  | _ => False
  end.

(** What the subscriber function makes of a response. *)
Definition verdict (stubResponse : StubResponse) : Result unit * list Notification :=
  match stubResponse with
  | HttpResponse _ n =>
      if statusOk (Some n)
      then (Return tt, [next Sent; next (Response stubResponse); complete])
      else (Throw StatusNotOk, [next Sent])
  | HttpErrorResponse _ n =>
      if statusOk (Some n)
      then (Throw StatusOk, [next Sent])
      else (Return tt, [next Sent; error_ stubResponse])
  | Nullish | Unprintable _ => (Throw TypeError, [next Sent])
  | Foreign _ => (Throw InvalidResponse, [next Sent])
  end.

(** What a subscription to it makes the observer receive. *)
Definition delivery (stubResponse : StubResponse) : list Notification :=
  match verdict stubResponse with
  | (Return _, calls) => calls
  | (Throw e, calls) => calls ++ [thrown e]
  end.

(** The worlds of a backend set up by [setupStubServer(s, ...hs)] and then
    driven through the operations [ops]. *)
Definition reached s (hs : list (ApiHandler TState)) (ops : list Op) : World TState :=
  runOps ops (snd (setupStubServer s hs)).

(** The handlers registered in the current registry of [w] for the method
    named [k] and the url [u]. *)
Definition handlersRegistered w (k u : string) : list (ApiHandler TState) :=
  match currentRegistry w with
  | Some r => filter (λ h, methodName (method h) = k ∧ url h = u) (entries r)
  | None => []
  end.

(** [this.apiHandlers.match(k, u)] in world [w]. *)
Definition matchCurrent w (k u : string) : Result (option (ApiHandler TState)) :=
  match currentRegistry w with
  | Some r => ApiHandlers.match_ r k u
  | None => Throw TypeError
  end.

End Worlds.

(** ** The scenario of the test suite ([ngx-http-stub-server.spec.ts]) *)

Module Scenario.

Record User : Type := { user_id : Z; user_name : string }.
Record Project : Type := { project_id : Z; project_name : string; userIds : list Z }.

(** [type ServerState = { users: ...[]; projects: ...[] }] *)
Record ServerState : Type := { users : list User; projects : list Project }.

Definition userBody (u : User) : JsValue :=
  JObject [("id", JNumber (user_id u)); ("name", JString (user_name u))].

Definition projectBody (us : list User) (p : Project) : JsValue :=
  JObject [("id", JNumber (project_id p)); ("name", JString (project_name p));
           ("users", JArray (userBody <$>
                        filter (λ u, user_id u ∈ userIds p) us))].

(** The initial state of [beforeEach]. *)
Definition initialState : ServerState := {|
  users := [ {| user_id := 1; user_name := "Alice" |};
             {| user_id := 2; user_name := "Bob" |} ];
  projects := [ {| project_id := 1; project_name := "Project A"; userIds := [1; 2]%Z |};
                {| project_id := 2; project_name := "Project B"; userIds := [] |} ]
|}.

(** The two handlers of [beforeEach]. *)
Definition getUsers : ApiHandler ServerState :=
  handlerBuilder.get "/users"
    (λ _req res state, (ok res (JArray (userBody <$> users state)) 200, state)).

Definition getProjects : ApiHandler ServerState :=
  handlerBuilder.get "/projects"
    (λ _req res state,
       (ok res (JArray (projectBody (users state) <$> projects state)) 200, state)).

(** The handler of the test 'Put handler'. *)
Definition putUsers : ApiHandler ServerState :=
  handlerBuilder.get "/users"
    (λ _req res _state,
       (ok res (JArray [userBody {| user_id := 100; user_name := "Put User" |}]) 200,
        _state)).

(** The handler of the test 'Reset state': it pushes a user into the state
    before answering. *)
Definition pushUser : ApiHandler ServerState :=
  handlerBuilder.get "/users"
    (λ _req res state,
       let state' := {| users := users state ++
                                   [ {| user_id := 1000; user_name := "override User" |} ];
                        projects := projects state |} in
       (ok res (JArray (userBody <$> users state')) 200, state')).

(** A handler that misuses the builder: a success response with status 404. *)
Definition postNotFound : ApiHandler ServerState :=
  handlerBuilder.post "/users"
    (λ _req res state, (ok res JNull 404, state)).

Definition GET_users : HttpRequest :=
  Build_HttpRequest "GET" "/users" JUndefined eq_refl.
Definition POST_users : HttpRequest :=
  Build_HttpRequest "POST" "/users" JUndefined eq_refl.
Definition GET_users_slash : HttpRequest :=
  Build_HttpRequest "GET" "/users/" JUndefined eq_refl.

Definition Alice : User := {| user_id := 1; user_name := "Alice" |}.
Definition Bob : User := {| user_id := 2; user_name := "Bob" |}.
Definition Override : User := {| user_id := 1000; user_name := "override User" |}.

(** The bodies passed to [observer.next] in a world, oldest first. *)
Definition delivered (w : World ServerState) : list JsValue :=
  omap (λ n, match n with
             | next (Response (HttpResponse body _)) => Some body
             | _ => None
             end) (observer w).

End Scenario.

(** ** The first backend ([HttpClientTestingBackend]) *)

(** [class HttpClientTestingBackend<TState>], of the earlier version of
    [ngx-http-stub-server.ts]: the backend without snapshots.  It has the two
    fields [apiHandlers] and [state] only (its [initialize] leaves the two
    others of the record alone); its [putHandlers] and [handle] are, word for
    word, those of [HttpClientStubBackend], and so is its [ApiHandlers]. *)
Module HttpClientTestingBackend.
Section HttpClientTestingBackend.
Context {TState : Type}.

(** [initialize(newState, handlers)]: [this.state = newState] keeps the
    caller's object itself, so the argument is its location. *)
Definition initialize (newState : loc) (handlers : list (ApiHandler TState)) : M unit :=
  run HttpClientStubBackend.setState (Some newState) then
  let* r := lift (ApiHandlers.new handlers) in
  let* h := allocRegistry r in
  HttpClientStubBackend.setApiHandlers (Some h).

Definition putHandlers (handlers : list (ApiHandler TState)) : M unit :=
  HttpClientStubBackend.putHandlers handlers.

Definition handle (req : HttpRequest) : M (Observable TState) :=
  HttpClientStubBackend.handle req.

Definition request (req : HttpRequest) : M (TState := TState) unit :=
  HttpClientStubBackend.request req.

End HttpClientTestingBackend.
End HttpClientTestingBackend.

(** ** Notions for the further properties *)

Section Notions.
Context {TState : Type}.

(** The last handler of [hs] whose method is named [k] and whose url is
    [u]. *)
Definition lastFor (k u : string) (hs : list (ApiHandler TState))
  : option (ApiHandler TState) :=
  last (filter (λ h, methodName (method h) = k ∧ url h = u) hs).

(** A call on the observer that respects the two channels: a success response
    with a status in range on [next]; on [error], an error response with a
    status out of range, or the error that the subscriber function threw. *)
Definition wellDelivered (n : Notification) : Prop :=
  match n with
  | next Sent | complete | thrown _ => True
  | next (Response (HttpResponse _ status)) => inSuccessRange status
  | error_ (HttpErrorResponse _ status) => ¬ inSuccessRange status
  | _ => False
  end.

(** The factory of [handlerBuilder] for each method. *)
Definition factoryOf (m : HttpMethod) : string → HandlerFn TState → ApiHandler TState :=
  match m with
  | HEAD => handlerBuilder.head
  | GET => handlerBuilder.get
  | POST => handlerBuilder.post
  | PUT => handlerBuilder.put
  | DELETE => handlerBuilder.delete
  | PATCH => handlerBuilder.patch
  | OPTIONS => handlerBuilder.options
  end.

(** What a client can tell of a world: the current state and registry, and
    the two snapshots. *)
Definition sameView (w1 w2 : World TState) : Prop :=
  currentState w1 = currentState w2 ∧
  currentRegistry w1 = currentRegistry w2 ∧
  initialStateSnapshot w1 = initialStateSnapshot w2 ∧
  initialRegistrySnapshot w1 = initialRegistrySnapshot w2.

(** The current state and the current registry sit at or above the locations
    [n] and [m]: the objects below are out of reach of the backend. *)
Definition above (n m : nat) (w : World TState) : Prop :=
  (∀ l, state (this w) = Some l → n ≤ l) ∧
  (∀ l, apiHandlers (this w) = Some l → m ≤ l).


(** The results of a sequence of operations, one per operation. *)
Fixpoint outcomes (ops : list (Op (TState := TState))) (w : World TState)
  : list (Result unit) :=
  match ops with
  | [] => []
  | o :: ops' => fst (runOp o w) :: outcomes ops' (snd (runOp o w))
  end.

End Notions.

Section RegistryFacts.
Context {TState : Type}.
Implicit Types (r : ApiHandlers TState) (h : ApiHandler TState).
Implicit Types (l : list (ApiHandler TState)) (m : HttpMethod) (k u : string).

Lemma methodName_inj m m' : methodName m = methodName m' → m = m'.
Proof. destruct m, m'; simpl; intros E; first [reflexivity | discriminate E]. Qed.

Lemma methodName_own m : bool_decide (methodName m ∈ objectPrototypeKeys) = false.
Proof. destruct m; vm_compute; reflexivity. Qed.

Lemma methodName_upper m : hasLowerCase (methodName m) = false.
Proof. destruct m; reflexivity. Qed.

Lemma findIndex_none {A} (p : A → bool) (xs : list A) :
  findIndex p xs = (-1)%Z ↔ Forall (λ x, p x = false) xs.
Proof.
  unfold findIndex. destruct (list_find _ xs) as [[i x]|] eqn:E.
  - split; [lia|]. intros HF. apply list_find_Some in E as (Hi & Hp & _).
    apply list_elem_of_lookup_2 in Hi.
    rewrite Forall_forall in HF. rewrite (HF _ Hi) in Hp. destruct Hp.
  - split; [|done]. intros _. apply list_find_None in E.
    eapply Forall_impl; [exact E|]. intros x Hx. simpl in Hx.
    destruct (p x); [destruct Hx; exact I | reflexivity].
Qed.

Lemma findIndex_some {A} (p : A → bool) (xs : list A) :
  findIndex p xs ≠ (-1)%Z →
  ∃ x, xs !! Z.to_nat (findIndex p xs) = Some x ∧ p x = true ∧
       ∀ j y, xs !! j = Some y → j < Z.to_nat (findIndex p xs) → p y = false.
Proof.
  unfold findIndex. destruct (list_find _ xs) as [[i x]|] eqn:E; [|done].
  intros _. apply list_find_Some in E as (Hi & Hp & Hlt).
  rewrite Nat2Z.id. exists x. split; [done|]. split.
  - destruct (p x); [reflexivity | destruct Hp].
  - intros j y Hj Hji. specialize (Hlt j y Hj Hji). simpl in Hlt.
    destruct (p y); [destruct Hlt; exact I | reflexivity].
Qed.

Lemma find_some {A} (p : A → bool) (xs : list A) (x : A) :
  find p xs = Some x ↔
  ∃ i, xs !! i = Some x ∧ p x = true ∧ ∀ j y, xs !! j = Some y → j < i → p y = false.
Proof.
  unfold find. destruct (list_find _ xs) as [[i y]|] eqn:E.
  - apply list_find_Some in E as (Hi & Hp & Hlt). split.
    + intros [= <-]. exists i. split; [done|]. split.
      * destruct (p y); [reflexivity | destruct Hp].
      * intros j z Hj Hji. specialize (Hlt j z Hj Hji). simpl in Hlt.
        destruct (p z); [destruct Hlt; exact I | reflexivity].
    + intros (i' & Hi' & Hp' & Hlt'). f_equal.
      destruct (Nat.lt_trichotomy i i') as [Hlt0|[->|Hgt]].
      * rewrite (Hlt' _ _ Hi Hlt0) in Hp. destruct Hp.
      * congruence.
      * specialize (Hlt _ _ Hi' Hgt). simpl in Hlt. rewrite Hp' in Hlt.
        destruct Hlt; exact I.
  - apply list_find_None in E. split; [done|].
    intros (i & Hi & Hp & _). apply list_elem_of_lookup_2 in Hi.
    rewrite Forall_forall in E. specialize (E _ Hi). simpl in E.
    rewrite Hp in E. destruct E; exact I.
Qed.

Lemma find_none {A} (p : A → bool) (xs : list A) :
  find p xs = None ↔ Forall (λ x, p x = false) xs.
Proof.
  unfold find. destruct (list_find _ xs) as [[i y]|] eqn:E.
  - split; [done|]. intros HF. apply list_find_Some in E as (Hi & Hp & _).
    apply list_elem_of_lookup_2 in Hi.
    rewrite Forall_forall in HF. rewrite (HF _ Hi) in Hp. destruct Hp.
  - split; [|done]. intros _. apply list_find_None in E.
    eapply Forall_impl; [exact E|]. intros x Hx. simpl in Hx.
    destruct (p x); [destruct Hx; exact I | reflexivity].
Qed.

Lemma empty_lookup k l :
  handlersByMethod (ApiHandlers.empty (TState := TState)) !! k = Some l →
  ∃ m, k = methodName m ∧ l = [].
Proof.
  unfold ApiHandlers.empty. cbn [handlersByMethod]. intros E.
  apply elem_of_list_to_map_2 in E.
  apply list_elem_of_fmap in E as (m & [= -> ->] & _). eauto.
Qed.

Lemma empty_lookup_method m :
  handlersByMethod (ApiHandlers.empty (TState := TState)) !! methodName m = Some [].
Proof. destruct m; vm_compute; reflexivity. Qed.

Lemma wellFormed_empty : wellFormed (ApiHandlers.empty (TState := TState)).
Proof.
  split.
  - intros m. rewrite empty_lookup_method. eauto.
  - intros k l E. apply empty_lookup in E as (m & -> & ->).
    exists m. split; [done|]. split; [constructor|]. simpl. constructor.
Qed.

Lemma wellFormed_getProperty r m :
  wellFormed r →
  getProperty (handlersByMethod r) (methodName m) = Own (handlersOf r m).
Proof.
  intros [Hdom _]. unfold getProperty, handlersOf.
  destruct (Hdom m) as [l ->]. reflexivity.
Qed.

Lemma putArray_append h l :
  Forall (λ h0, url h0 ≠ url h) l → putArray h l = l ++ [h].
Proof.
  intros HF. unfold putArray.
  assert (findIndex (λ h0, bool_decide (url h0 = url h)) l = (-1)%Z) as ->.
  { apply findIndex_none. eapply Forall_impl; [exact HF|].
    intros x Hx. simpl. by apply bool_decide_eq_false. }
  reflexivity.
Qed.

Lemma putArray_replace h l i h0 :
  NoDup (url <$> l) → l !! i = Some h0 → url h0 = url h →
  putArray h l = <[i := h]> l.
Proof.
  intros Hnd Hi Hu. unfold putArray.
  set (p := λ h1 : ApiHandler TState, bool_decide (url h1 = url h)).
  destruct (Z.eqb_spec (findIndex p l) (-1)) as [E|E].
  - apply findIndex_none in E. rewrite Forall_lookup in E.
    specialize (E _ _ Hi). unfold p in E. apply bool_decide_eq_false in E. done.
  - apply findIndex_some in E as (x & Hx & Hp & _).
    unfold p in Hp. apply bool_decide_eq_true in Hp.
    assert (Z.to_nat (findIndex p l) = i) as ->; [|done].
    eapply NoDup_lookup; [exact Hnd| |].
    + rewrite list_lookup_fmap, Hx. reflexivity.
    + rewrite list_lookup_fmap, Hi. simpl. congruence.
Qed.

Lemma putArray_cases h l :
  (Forall (λ h0, url h0 ≠ url h) l ∧ putArray h l = l ++ [h]) ∨
  (∃ i h0, l !! i = Some h0 ∧ url h0 = url h ∧ putArray h l = <[i := h]> l).
Proof.
  unfold putArray.
  set (p := λ h1 : ApiHandler TState, bool_decide (url h1 = url h)).
  destruct (Z.eqb_spec (findIndex p l) (-1)) as [E|E].
  - left. split; [|done]. apply findIndex_none in E.
    eapply Forall_impl; [exact E|]. intros x Hx. unfold p in Hx.
    by apply bool_decide_eq_false in Hx.
  - right. apply findIndex_some in E as (x & Hx & Hp & _).
    unfold p in Hp. apply bool_decide_eq_true in Hp. eauto.
Qed.

Lemma putArray_methods h l :
  Forall (λ h0, method h0 = method h) l →
  Forall (λ h0, method h0 = method h) (putArray h l).
Proof.
  intros HF. destruct (putArray_cases h l) as [[_ ->]|(i & h0 & _ & _ & ->)].
  - apply Forall_app_2; [done|]. by constructor.
  - by apply Forall_insert.
Qed.

Lemma putArray_urls h l : NoDup (url <$> l) → NoDup (url <$> putArray h l).
Proof.
  intros Hnd. destruct (putArray_cases h l) as [[HF ->]|(i & h0 & Hi & Hu & ->)].
  - rewrite fmap_app. apply NoDup_app. split; [done|]. split.
    + intros x Hx Hin. simpl in Hin. apply list_elem_of_singleton in Hin as ->.
      apply list_elem_of_fmap in Hx as (y & Hy & Hin).
      rewrite Forall_forall in HF. by apply (HF y).
    + simpl. apply NoDup_singleton.
  - rewrite list_fmap_insert. rewrite list_insert_id; [done|].
    rewrite list_lookup_fmap, Hi. simpl. congruence.
Qed.

Lemma putArray_elem h l : h ∈ putArray h l.
Proof.
  destruct (putArray_cases h l) as [[_ ->]|(i & h0 & Hi & _ & ->)].
  - apply elem_of_app. right. by apply list_elem_of_singleton.
  - apply list_elem_of_lookup. exists i. apply list_lookup_insert_eq.
    by eapply lookup_lt_Some.
Qed.

Lemma filter_none (P : ApiHandler TState → Prop) `{!∀ x, Decision (P x)} l :
  (∀ x, x ∈ l → ¬ P x) → filter P l = [].
Proof.
  induction l as [|a l IH]; intros HP; [done|].
  rewrite filter_cons_False.
  - apply IH. intros x Hx. apply HP. by right.
  - apply HP. by left.
Qed.

(** In an array with distinct urls, the entries with a given url are the one
    entry that has it. *)
Lemma filter_unique_url (P : ApiHandler TState → Prop) `{!∀ x, Decision (P x)} l h :
  NoDup (url <$> l) → h ∈ l → P h → (∀ h', h' ∈ l → P h' → url h' = url h) →
  filter P l = [h].
Proof.
  induction l as [|a l IH]; intros Hnd Hin HP Hu; [by apply elem_of_nil in Hin|].
  rewrite fmap_cons in Hnd. apply NoDup_cons in Hnd as [Ha Hnd].
  assert (∀ h', h' ∈ l → url h' ≠ url a) as Hne.
  { intros h' Hh' E. apply Ha. rewrite <- E. apply list_elem_of_fmap. eauto. }
  apply elem_of_cons in Hin as [->|Hin].
  - rewrite filter_cons_True by done. f_equal.
    apply filter_none. intros x Hx HPx. apply (Hne x Hx).
    apply Hu; [by right|done].
  - rewrite filter_cons_False.
    + apply IH; try done. intros h' Hh'. apply Hu. by right.
    + intros HPa. apply (Hne h Hin). symmetry. apply Hu; [by left|done].
Qed.

Lemma put_unfold r h :
  wellFormed r →
  ApiHandlers.put h r =
  Return (Build_ApiHandlers
            (<[methodName (method h) := putArray h (handlersOf r (method h))]>
               (handlersByMethod r))).
Proof.
  intros Hwf. unfold ApiHandlers.put, putArray.
  rewrite (wellFormed_getProperty r (method h) Hwf).
  by destruct (_ =? _)%Z.
Qed.

Lemma put_handlersOf r h r' m :
  wellFormed r → ApiHandlers.put h r = Return r' →
  handlersOf r' m =
  if decide (m = method h) then putArray h (handlersOf r m) else handlersOf r m.
Proof.
  intros Hwf. rewrite (put_unfold r h Hwf). intros [= <-].
  unfold handlersOf at 1. cbn [handlersByMethod].
  destruct (decide (m = method h)) as [->|Hne].
  - by rewrite lookup_insert_eq.
  - rewrite lookup_insert_ne; [done|]. intros E. by apply methodName_inj in E.
Qed.

Lemma put_wellFormed r h r' :
  wellFormed r → ApiHandlers.put h r = Return r' → wellFormed r'.
Proof.
  intros Hwf. pose proof Hwf as [Hdom Hshape].
  rewrite (put_unfold r h Hwf). intros [= <-]. split.
  - intros m. cbn [handlersByMethod].
    destruct (decide (methodName (method h) = methodName m)) as [E|E].
    + rewrite E, lookup_insert_eq. eauto.
    + rewrite lookup_insert_ne by done. apply Hdom.
  - intros k l. cbn [handlersByMethod].
    destruct (decide (methodName (method h) = k)) as [<-|E].
    + rewrite lookup_insert_eq. intros [= <-]. exists (method h).
      split; [done|]. unfold handlersOf.
      destruct (Hdom (method h)) as [l0 Hl0]. rewrite Hl0. simpl.
      destruct (Hshape _ _ Hl0) as (m & Em & HF & Hnd).
      apply methodName_inj in Em as <-. split.
      * by apply putArray_methods.
      * by apply putArray_urls.
    + rewrite lookup_insert_ne by done. apply Hshape.
Qed.

Lemma Reachable_wellFormed r : Reachable r → wellFormed r.
Proof.
  induction 1 as [|h r r' _ IH Hput]; [apply wellFormed_empty|].
  by eapply put_wellFormed.
Qed.

Lemma wellFormed_handlersOf r m :
  wellFormed r →
  handlersByMethod r !! methodName m = Some (handlersOf r m) ∧
  Forall (λ h, method h = m) (handlersOf r m) ∧ NoDup (url <$> handlersOf r m).
Proof.
  intros [Hdom Hshape]. unfold handlersOf. destruct (Hdom m) as [l Hl].
  rewrite Hl. simpl. split; [done|].
  destruct (Hshape _ _ Hl) as (m' & E & HF & Hnd).
  apply methodName_inj in E as <-. done.
Qed.

Lemma wellFormed_atMostOne r : wellFormed r → atMostOne r.
Proof.
  intros [_ Hshape] k k' l l' i j h h' Hl Hl' Hi Hj [Hm Hu].
  destruct (Hshape _ _ Hl) as (m & -> & HF & Hnd).
  destruct (Hshape _ _ Hl') as (m' & -> & HF' & _).
  rewrite Forall_lookup in HF, HF'.
  assert (m = m') as <- by (rewrite <- (HF _ _ Hi), <- (HF' _ _ Hj); done).
  split; [done|]. assert (l' = l) as -> by congruence.
  eapply NoDup_lookup; [exact Hnd| |].
  - rewrite list_lookup_fmap, Hi. reflexivity.
  - rewrite list_lookup_fmap, Hj. simpl. congruence.
Qed.

Lemma putAll_Reachable (hs : list (ApiHandler TState)) r :
  Reachable r → ∃ r', ApiHandlers.putAll hs r = Return r' ∧ Reachable r'.
Proof.
  revert r. induction hs as [|h hs IH]; intros r Hr; simpl; [eauto|].
  rewrite (put_unfold r h (Reachable_wellFormed r Hr)).
  apply IH. eapply reachable_put; [exact Hr|].
  apply put_unfold. by apply Reachable_wellFormed.
Qed.

Lemma new_Reachable (hs : list (ApiHandler TState)) :
  ∃ r, ApiHandlers.new hs = Return r ∧ Reachable r.
Proof. apply putAll_Reachable. constructor. Qed.

Lemma putAll_app (hs1 hs2 : list (ApiHandler TState)) r r1 :
  ApiHandlers.putAll hs1 r = Return r1 →
  ApiHandlers.putAll (hs1 ++ hs2) r = ApiHandlers.putAll hs2 r1.
Proof.
  revert r. induction hs1 as [|h hs1 IH]; intros r; simpl; [by intros [= ->]|].
  destruct (ApiHandlers.put h r) as [r0|e]; [apply IH | done].
Qed.

Lemma upperCase_own k : hasLowerCase k = false → bool_decide (k ∈ objectPrototypeKeys) = false.
Proof.
  intros Hk. apply bool_decide_eq_false. unfold objectPrototypeKeys. intros Hin.
  repeat (apply elem_of_cons in Hin as [->|Hin]; [discriminate Hk|]).
  by apply elem_of_nil in Hin.
Qed.

Lemma match_method r m u :
  wellFormed r →
  ApiHandlers.match_ r (methodName m) u =
  Return (find (λ h, bool_decide (url h = u)) (handlersOf r m)).
Proof.
  intros Hwf. unfold ApiHandlers.match_.
  by rewrite (wellFormed_getProperty r m Hwf).
Qed.

Lemma match_found r k u h :
  wellFormed r → ApiHandlers.match_ r k u = Return (Some h) →
  ∃ m, k = methodName m ∧ method h = m ∧ url h = u ∧ h ∈ handlersOf r m.
Proof.
  intros Hwf. pose proof Hwf as [_ Hshape]. unfold ApiHandlers.match_, getProperty.
  destruct (handlersByMethod r !! k) as [l|] eqn:Hl.
  - intros [= Hf]. destruct (Hshape _ _ Hl) as (m & -> & HF & _).
    apply find_some in Hf as (i & Hi & Hp & _).
    apply bool_decide_eq_true in Hp. exists m. split; [done|].
    rewrite Forall_lookup in HF. split; [by eapply HF|]. split; [done|].
    unfold handlersOf. rewrite Hl. simpl. by eapply list_elem_of_lookup_2.
  - by destruct (bool_decide _).
Qed.

Lemma match_registered r m u h :
  wellFormed r → h ∈ handlersOf r m → url h = u →
  ApiHandlers.match_ r (methodName m) u = Return (Some h).
Proof.
  intros Hwf Hin Hu. rewrite (match_method r m u Hwf). f_equal.
  destruct (wellFormed_handlersOf r m Hwf) as (_ & _ & Hnd).
  apply list_elem_of_lookup in Hin as [i Hi].
  apply find_some. exists i. split; [done|]. split; [by apply bool_decide_eq_true|].
  intros j y Hj Hji. apply bool_decide_eq_false. intros E.
  assert (j = i); [|lia].
  eapply NoDup_lookup; [exact Hnd| |].
  - rewrite list_lookup_fmap, Hj. reflexivity.
  - rewrite list_lookup_fmap, Hi. simpl. congruence.
Qed.

Lemma entry_entries r h : entry r h → h ∈ entries r.
Proof.
  intros (k & l & Hl & Hin). unfold entries. apply list_elem_of_bind.
  exists (k, l). split; [done|]. by apply elem_of_map_to_list.
Qed.

Lemma match_unregistered r k u :
  wellFormed r → bool_decide (k ∈ objectPrototypeKeys) = false →
  (∀ h, entry r h → ¬ (methodName (method h) = k ∧ url h = u)) →
  ApiHandlers.match_ r k u = Return None.
Proof.
  intros [_ Hshape] Hk Hno. unfold ApiHandlers.match_, getProperty. rewrite Hk.
  destruct (handlersByMethod r !! k) as [l|] eqn:Hl; [|done].
  f_equal. apply find_none. apply Forall_forall. intros h Hin.
  apply bool_decide_eq_false. intros Hu.
  destruct (Hshape _ _ Hl) as (m & -> & HF & _).
  rewrite Forall_forall in HF. apply (Hno h); [by exists (methodName m), l|].
  by rewrite (HF _ Hin).
Qed.

Lemma match_unknown r k u :
  wellFormed r → (∀ m, k ≠ methodName m) →
  ApiHandlers.match_ r k u =
  if bool_decide (k ∈ objectPrototypeKeys) then Throw TypeError else Return None.
Proof.
  intros [_ Hshape] Hk. unfold ApiHandlers.match_, getProperty.
  destruct (handlersByMethod r !! k) as [l|] eqn:Hl.
  - destruct (Hshape _ _ Hl) as (m & -> & _). by destruct (Hk m).
  - by destruct (bool_decide _).
Qed.

Lemma registeredFor_put_same r h r' :
  wellFormed r → ApiHandlers.put h r = Return r' →
  registeredFor r' (method h) (url h) = [h].
Proof.
  intros Hwf Hput. unfold registeredFor.
  rewrite (put_handlersOf r h r' (method h) Hwf Hput).
  destruct (decide (method h = method h)); [|done].
  destruct (wellFormed_handlersOf r (method h) Hwf) as (_ & _ & Hnd).
  apply filter_unique_url.
  - by apply putArray_urls.
  - apply putArray_elem.
  - done.
  - by intros h' _ [_ ?].
Qed.

Lemma filter_insert_out (P : ApiHandler TState → Prop) `{!∀ x, Decision (P x)} l i h0 h :
  l !! i = Some h0 → ¬ P h0 → ¬ P h → filter P (<[i := h]> l) = filter P l.
Proof.
  intros Hi Hh0 Hh.
  rewrite insert_take_drop by (by eapply lookup_lt_Some).
  rewrite <- (take_drop_middle l i h0 Hi) at 3.
  rewrite !filter_app, !filter_cons_False by done. reflexivity.
Qed.

Lemma registeredFor_put_other r h r' m u :
  wellFormed r → ApiHandlers.put h r = Return r' →
  ¬ (method h = m ∧ url h = u) →
  registeredFor r' m u = registeredFor r m u.
Proof.
  intros Hwf Hput Hne. unfold registeredFor.
  rewrite (put_handlersOf r h r' m Hwf Hput).
  destruct (decide (m = method h)) as [->|]; [|done].
  assert (url h ≠ u) as Hu by (intros E; by apply Hne).
  destruct (putArray_cases h (handlersOf r (method h))) as [[_ ->]|(i & h0 & Hi & Hu0 & ->)].
  - rewrite filter_app, filter_cons_False by (by intros [_ ?]).
    by rewrite filter_nil, app_nil_r.
  - eapply filter_insert_out; [exact Hi| |]; intros [_ ?]; congruence.
Qed.

Lemma registeredFor_putAll_others (hs : list (ApiHandler TState)) r r' h :
  Reachable r → ApiHandlers.putAll hs r = Return r' →
  Forall (λ h', ¬ sameKey h' h) hs →
  registeredFor r' (method h) (url h) = registeredFor r (method h) (url h).
Proof.
  revert r. induction hs as [|a hs IH]; intros r Hr; simpl; [by intros [= ->]|].
  pose proof (Reachable_wellFormed r Hr) as Hwf.
  destruct (ApiHandlers.put a r) as [r1|e] eqn:Hput; [|done].
  intros Hall HF. apply Forall_cons in HF as [Ha HF].
  rewrite (IH r1); [|by eapply reachable_put|done|done].
  by apply (registeredFor_put_other r a r1).
Qed.

Lemma registeredFor_putAll_last (hs1 hs2 : list (ApiHandler TState)) r h :
  Reachable r → Forall (λ h', ¬ sameKey h' h) hs2 →
  ∃ r', ApiHandlers.putAll (hs1 ++ h :: hs2) r = Return r' ∧ Reachable r' ∧
        registeredFor r' (method h) (url h) = [h].
Proof.
  intros Hr HF.
  destruct (putAll_Reachable hs1 r Hr) as (r1 & H1 & Hr1).
  pose proof (put_unfold r1 h (Reachable_wellFormed r1 Hr1)) as Hput.
  assert (Reachable (Build_ApiHandlers
    (<[methodName (method h) := putArray h (handlersOf r1 (method h))]>
       (handlersByMethod r1)))) as Hr2 by (by eapply reachable_put).
  destruct (putAll_Reachable hs2 _ Hr2) as (r3 & H3 & Hr3).
  exists r3. split; [|split; [done|]].
  - rewrite (putAll_app hs1 (h :: hs2) r r1 H1). simpl. by rewrite Hput.
  - rewrite (registeredFor_putAll_others hs2 _ r3 h Hr2 H3 HF).
    eapply registeredFor_put_same; [|exact Hput]. by apply Reachable_wellFormed.
Qed.

Lemma putArray_from h l x : x ∈ putArray h l → x = h ∨ x ∈ l.
Proof.
  destruct (putArray_cases h l) as [[_ ->]|(i & h0 & Hi & _ & ->)].
  - intros Hin. apply elem_of_app in Hin as [?|Hin]; [by right|].
    left. by apply list_elem_of_singleton in Hin.
  - intros Hin. apply list_elem_of_lookup in Hin as [j Hj].
    apply list_lookup_insert_Some in Hj as [(-> & -> & _)|(_ & Hj)]; [by left|].
    right. by eapply list_elem_of_lookup_2.
Qed.

Lemma putAll_from (hs : list (ApiHandler TState)) r r' m x :
  Reachable r → ApiHandlers.putAll hs r = Return r' →
  x ∈ handlersOf r' m → x ∈ hs ∨ x ∈ handlersOf r m.
Proof.
  revert r. induction hs as [|a hs IH]; intros r Hr; simpl; [intros [= ->]; by right|].
  pose proof (Reachable_wellFormed r Hr) as Hwf.
  destruct (ApiHandlers.put a r) as [r1|e] eqn:Hput; [|done].
  intros Hall Hin.
  destruct (IH r1 (reachable_put _ _ _ Hr Hput) Hall Hin) as [?|Hin1]; [left; by right|].
  rewrite (put_handlersOf r a r1 m Hwf Hput) in Hin1.
  destruct (decide (m = method a)) as [->|]; [|by right].
  apply putArray_from in Hin1 as [->|?]; [left; by left | by right].
Qed.

Lemma handlersOf_empty m : handlersOf (ApiHandlers.empty (TState := TState)) m = [].
Proof. unfold handlersOf. by rewrite empty_lookup_method. Qed.

End RegistryFacts.

Section WorldFacts.
Context {TState : Type}.
Implicit Types (w : World TState) (r : ApiHandlers TState) (s : TState).

Lemma lookup_snoc {A} (xs : list A) (x : A) : (xs ++ [x]) !! length xs = Some x.
Proof. by apply list_lookup_middle. Qed.

Lemma lookup_snoc_old {A} (xs : list A) (x y : A) i :
  xs !! i = Some y → (xs ++ [x]) !! i = Some y.
Proof. intros H. by apply lookup_app_l_Some. Qed.

Lemma initialize_spec s hs w0 :
  ∃ r0 w1,
    ApiHandlers.new hs = Return r0 ∧
    HttpClientStubBackend.initialize s hs w0 = (Return tt, w1) ∧
    Ready s r0 w1 ∧ currentRegistry w1 = Some r0 ∧ currentState w1 = Some s ∧
    observer w1 = observer w0.
Proof.
  destruct (new_Reachable hs) as (r0 & Hnew & Hr0).
  exists r0. eexists. split; [exact Hnew|].
  unfold HttpClientStubBackend.initialize, bind, lift, allocState, allocRegistry,
    HttpClientStubBackend.setState, HttpClientStubBackend.setInitialState,
    HttpClientStubBackend.setApiHandlers, HttpClientStubBackend.setInitialHandlers,
    setThis, getThis, cloneRegistry, readRegistry, defined, bind, ret.
  cbn. rewrite Hnew. cbn. rewrite lookup_snoc. cbn.
  split; [reflexivity|].
  rewrite !length_app. cbn.
  split; [|split; [|split]]; try reflexivity.
  - split; cbn.
    + exists (length (registries w0)), r0. split; [done|]. split; [|done].
      apply lookup_snoc_old, lookup_snoc.
    + exists (length (states w0)), s. split; [done|].
      apply lookup_snoc_old, lookup_snoc.
    + exists (length (states w0) + 1). split; [done|].
      replace (length (states w0) + 1) with (length (states w0 ++ [s]))
        by (rewrite length_app; reflexivity).
      apply lookup_snoc.
    + exists (length (registries w0) + 1). split; [done|].
      replace (length (registries w0) + 1) with (length (registries w0 ++ [r0]))
        by (rewrite length_app; reflexivity).
      apply lookup_snoc.
    + intros [= E]. lia.
    + intros [= E]. lia.
    + exact Hr0.
  - unfold currentRegistry. cbn. apply lookup_snoc_old, lookup_snoc.
  - unfold currentState. cbn. apply lookup_snoc_old, lookup_snoc.
Qed.

(** [put] on the current registry: only that object changes. *)
Lemma putHandler_spec s0 r0 w h :
  Ready s0 r0 w →
  ∃ l r r',
    apiHandlers (this w) = Some l ∧ registries w !! l = Some r ∧
    ApiHandlers.put h r = Return r' ∧ Reachable r' ∧
    HttpClientStubBackend.putHandler h w =
      (Return tt, Build_World (states w) (<[l := r']> (registries w)) (this w) (observer w)).
Proof.
  intros HR. destruct (ready_apiHandlers _ _ _ HR) as (l & r & Hl & Hr & Hreach).
  pose proof (put_unfold r h (Reachable_wellFormed r Hreach)) as Hput.
  exists l, r. eexists. split; [done|]. split; [done|]. split; [exact Hput|].
  split; [by eapply reachable_put|].
  unfold HttpClientStubBackend.putHandler, bind, getThis, defined, readRegistry, lift.
  rewrite Hl. cbn. rewrite Hr, Hput. reflexivity.
Qed.

Lemma Ready_write_registry s0 r0 w l r r' :
  Ready s0 r0 w → apiHandlers (this w) = Some l → registries w !! l = Some r →
  Reachable r' →
  Ready s0 r0 (Build_World (states w) (<[l := r']> (registries w)) (this w) (observer w)).
Proof.
  intros HR Hl Hr Hreach. destruct HR as [_ Hst His Hih Hsep Hhsep Hr0].
  destruct Hih as (li & Hli & Hi).
  assert (l ≠ li) as Hne by (intros ->; apply Hhsep; congruence).
  split; cbn; try done.
  - exists l, r'. split; [done|]. split; [|done].
    apply list_lookup_insert_eq. by eapply lookup_lt_Some.
  - exists li. split; [done|]. by rewrite list_lookup_insert_ne.
Qed.

Lemma putHandlers_spec s0 r0 w hs :
  Ready s0 r0 w →
  ∃ l r r',
    apiHandlers (this w) = Some l ∧ registries w !! l = Some r ∧
    ApiHandlers.putAll hs r = Return r' ∧ Reachable r' ∧
    HttpClientStubBackend.putHandlers hs w =
      (Return tt, Build_World (states w) (<[l := r']> (registries w)) (this w) (observer w)).
Proof.
  revert w. induction hs as [|h hs IH]; intros w HR.
  - destruct (ready_apiHandlers _ _ _ HR) as (l & r & Hl & Hr & Hreach).
    exists l, r, r. repeat (split; [done|]). cbn. unfold ret.
    rewrite list_insert_id by done. by destruct w.
  - destruct (putHandler_spec s0 r0 w h HR) as (l & r & r1 & Hl & Hr & Hput & Hreach1 & Hrun).
    pose proof (Ready_write_registry s0 r0 w l r r1 HR Hl Hr Hreach1) as HR1.
    destruct (IH _ HR1) as (l' & r1' & r2 & Hl' & Hr1' & Hall & Hreach2 & Hrun').
    cbn in Hl', Hr1'. assert (l' = l) as -> by congruence.
    rewrite list_lookup_insert_eq in Hr1' by (by eapply lookup_lt_Some).
    injection Hr1' as <-.
    exists l, r, r2. split; [done|]. split; [done|]. split.
    { cbn. by rewrite Hput. }
    split; [done|].
    cbn [HttpClientStubBackend.putHandlers]. unfold bind at 1. rewrite Hrun, Hrun'.
    cbn. by rewrite list_insert_insert_eq.
Qed.

Lemma Ready_putHandlers s0 r0 w hs :
  Ready s0 r0 w → Ready s0 r0 (snd (HttpClientStubBackend.putHandlers hs w)).
Proof.
  intros HR.
  destruct (putHandlers_spec s0 r0 w hs HR) as (l & r & r' & Hl & Hr & _ & Hreach & ->).
  by eapply Ready_write_registry.
Qed.

(** [resetHandlers]: a fresh object holding the initial registry becomes the
    current one; nothing else changes. *)
Lemma resetHandlers_spec s0 r0 w :
  Ready s0 r0 w →
  HttpClientStubBackend.resetHandlers w =
    (Return tt,
     Build_World (states w) (registries w ++ [r0])
       (Build_HttpClientStubBackend (Some (length (registries w))) (state (this w))
          (initialState (this w)) (initialHandlers (this w)))
       (observer w)).
Proof.
  intros HR. destruct (ready_initialHandlers _ _ _ HR) as (li & Hli & Hi).
  unfold HttpClientStubBackend.resetHandlers, bind, getThis, cloneRegistry,
    HttpClientStubBackend.setApiHandlers, setThis.
  rewrite Hli. unfold bind, readRegistry. rewrite Hi. cbn. rewrite Hli. reflexivity.
Qed.

Lemma Ready_resetHandlers s0 r0 w :
  Ready s0 r0 w → Ready s0 r0 (snd (HttpClientStubBackend.resetHandlers w)).
Proof.
  intros HR. rewrite (resetHandlers_spec s0 r0 w HR). cbn.
  destruct HR as [_ Hst His Hih Hsep Hhsep Hr0].
  destruct Hih as (li & Hli & Hi).
  split; cbn; try done.
  - exists (length (registries w)), r0. split; [done|]. split; [|done]. apply lookup_snoc.
  - exists li. split; [done|]. by apply lookup_snoc_old.
  - rewrite Hli. intros [= E]. apply lookup_lt_Some in Hi. lia.
Qed.

(** [resetState]: a fresh object holding the initial state becomes the current
    one; nothing else changes. *)
Lemma resetState_spec s0 r0 w :
  Ready s0 r0 w →
  HttpClientStubBackend.resetState w =
    (Return tt,
     Build_World (states w ++ [s0]) (registries w)
       (Build_HttpClientStubBackend (apiHandlers (this w)) (Some (length (states w)))
          (initialState (this w)) (initialHandlers (this w)))
       (observer w)).
Proof.
  intros HR. destruct (ready_initialState _ _ _ HR) as (li & Hli & Hi).
  unfold HttpClientStubBackend.resetState, bind, getThis, cloneState,
    HttpClientStubBackend.setState, setThis.
  rewrite Hli. unfold bind, readState. rewrite Hi. cbn. rewrite Hli. reflexivity.
Qed.

Lemma Ready_resetState s0 r0 w :
  Ready s0 r0 w → Ready s0 r0 (snd (HttpClientStubBackend.resetState w)).
Proof.
  intros HR. rewrite (resetState_spec s0 r0 w HR). cbn.
  destruct HR as [Hah Hst His Hih Hsep Hhsep Hr0].
  destruct His as (li & Hli & Hi).
  split; cbn; try done.
  - exists (length (states w)), s0. split; [done|]. apply lookup_snoc.
  - exists li. split; [done|]. by apply lookup_snoc_old.
  - rewrite Hli. intros [= E]. apply lookup_lt_Some in Hi. lia.
Qed.

(** The handler is applied to the content of the current state object, and
    leaves its changes there. *)
Lemma callHandler_spec s0 r0 w handler req :
  Ready s0 r0 w →
  ∃ l s,
    state (this w) = Some l ∧ states w !! l = Some s ∧
    HttpClientStubBackend.callHandler handler req w =
      (Return (fst (handle handler req responseBuilder s)),
       Build_World (<[l := snd (handle handler req responseBuilder s)]> (states w))
         (registries w) (this w) (observer w)).
Proof.
  intros HR. destruct (ready_state _ _ _ HR) as (l & s & Hl & Hs).
  exists l, s. split; [done|]. split; [done|].
  unfold HttpClientStubBackend.callHandler, bind, getThis, defined, readState.
  rewrite Hl. cbn. rewrite Hs. reflexivity.
Qed.

Lemma Ready_write_state s0 r0 w l s s' obs :
  Ready s0 r0 w → state (this w) = Some l → states w !! l = Some s →
  Ready s0 r0 (Build_World (<[l := s']> (states w)) (registries w) (this w) obs).
Proof.
  intros HR Hl Hs. destruct HR as [Hah Hst His Hih Hsep Hhsep Hr0].
  destruct His as (li & Hli & Hi).
  assert (l ≠ li) as Hne by (intros ->; apply Hsep; congruence).
  split; cbn; try done.
  - exists l, s'. split; [done|]. apply list_lookup_insert_eq. by eapply lookup_lt_Some.
  - exists li. split; [done|]. by rewrite list_lookup_insert_ne.
Qed.

Lemma subscriber_spec s0 r0 w handler req :
  Ready s0 r0 w →
  ∃ l s,
    state (this w) = Some l ∧ states w !! l = Some s ∧
    HttpClientStubBackend.subscriber handler req w =
      (fst (verdict (fst (handle handler req responseBuilder s))),
       Build_World (<[l := snd (handle handler req responseBuilder s)]> (states w))
         (registries w) (this w)
         (observer w ++ snd (verdict (fst (handle handler req responseBuilder s))))).
Proof.
  intros HR. destruct (callHandler_spec s0 r0 w handler req HR) as (l & s & Hl & Hs & Hcall).
  exists l, s. split; [done|]. split; [done|].
  unfold HttpClientStubBackend.subscriber. unfold bind at 1. rewrite Hcall.
  destruct (fst (handle handler req responseBuilder s)) as [b n|e n| |n|n]; cbn;
    unfold bind, emit, HttpClientStubBackend.statusOf, ret, throw; cbn.
  - destruct ((200 <=? n)%Z && (n <? 300)%Z); cbn; [|done].
    by rewrite <- !app_assoc.
  - destruct ((200 <=? n)%Z && (n <? 300)%Z); cbn; [done|].
    by rewrite <- !app_assoc.
  - done.
  - done.
  - done.
Qed.

Lemma Ready_subscriber s0 r0 w handler req :
  Ready s0 r0 w → Ready s0 r0 (snd (HttpClientStubBackend.subscriber handler req w)).
Proof.
  intros HR. destruct (subscriber_spec s0 r0 w handler req HR) as (l & s & Hl & Hs & ->).
  cbn. by eapply Ready_write_state.
Qed.

(** [subscribe] on what the subscriber function did. *)
Lemma subscribe_after (o : Observable TState) w res sts regs b obs :
  o w = (res, Build_World sts regs b obs) →
  HttpClientStubBackend.subscribe o w =
    (Return tt,
     Build_World sts regs b
       (obs ++ match res with Return _ => [] | Throw e => [thrown e] end)).
Proof.
  intros Ho. unfold HttpClientStubBackend.subscribe. rewrite Ho.
  destruct res as [[]|e]; [by rewrite app_nil_r | done].
Qed.

Lemma subscribe_spec s0 r0 w handler req :
  Ready s0 r0 w →
  ∃ l s,
    state (this w) = Some l ∧ states w !! l = Some s ∧
    HttpClientStubBackend.subscribe (HttpClientStubBackend.subscriber handler req) w =
      (Return tt,
       Build_World (<[l := snd (handle handler req responseBuilder s)]> (states w))
         (registries w) (this w)
         (observer w ++ delivery (fst (handle handler req responseBuilder s)))).
Proof.
  intros HR. destruct (subscriber_spec s0 r0 w handler req HR) as (l & s & Hl & Hs & Hsub).
  exists l, s. split; [done|]. split; [done|].
  rewrite (subscribe_after _ _ _ _ _ _ _ Hsub). unfold delivery.
  destruct (verdict (fst (handle handler req responseBuilder s))) as [[[]|e] calls]; cbn.
  - by rewrite app_nil_r.
  - by rewrite app_assoc.
Qed.

Lemma Ready_subscribe s0 r0 w handler req :
  Ready s0 r0 w →
  Ready s0 r0 (snd (HttpClientStubBackend.subscribe
                      (HttpClientStubBackend.subscriber handler req) w)).
Proof.
  intros HR. destruct (subscribe_spec s0 r0 w handler req HR) as (l & s & Hl & Hs & ->).
  cbn. by eapply Ready_write_state.
Qed.

(** [handle] reads the current registry and changes nothing. *)
Lemma handle_spec s0 r0 w req :
  Ready s0 r0 w →
  ∃ r, currentRegistry w = Some r ∧ Reachable r ∧
    HttpClientStubBackend.handle req w =
      (match ApiHandlers.match_ r (req_method req) (req_url req) with
       | Return (Some handler) => Return (HttpClientStubBackend.subscriber handler req)
       | Return None => Throw NoHandlerFound
       | Throw e => Throw e
       end, w).
Proof.
  intros HR. destruct (ready_apiHandlers _ _ _ HR) as (l & r & Hl & Hr & Hreach).
  exists r. split; [by unfold currentRegistry; rewrite Hl|]. split; [done|].
  unfold HttpClientStubBackend.handle, bind, getThis, defined, readRegistry, lift.
  rewrite Hl. cbn. rewrite Hr.
  by destruct (ApiHandlers.match_ r (req_method req) (req_url req)) as [[handler|]|e].
Qed.

Lemma Ready_request s0 r0 w req :
  Ready s0 r0 w → Ready s0 r0 (snd (HttpClientStubBackend.request req w)).
Proof.
  intros HR. destruct (handle_spec s0 r0 w req HR) as (r & _ & _ & Hh).
  unfold HttpClientStubBackend.request, bind. rewrite Hh.
  destruct (ApiHandlers.match_ r (req_method req) (req_url req)) as [[handler|]|e]; cbn;
    [by apply Ready_subscribe|done|done].
Qed.

Lemma Ready_runOp s0 r0 w o : Ready s0 r0 w → Ready s0 r0 (snd (runOp o w)).
Proof.
  destruct o; cbn.
  - apply Ready_putHandlers.
  - apply Ready_resetHandlers.
  - apply Ready_resetState.
  - apply Ready_request.
  - apply Ready_subscribe.
Qed.

Lemma Ready_runOps s0 r0 ops w : Ready s0 r0 w → Ready s0 r0 (runOps ops w).
Proof.
  revert w. induction ops as [|o ops IH]; intros w HR; cbn; [done|].
  by apply IH, Ready_runOp.
Qed.

End WorldFacts.

(** ** The properties of the specification *)

Section Properties.
Context {TState : Type}.
Implicit Types (w : World TState) (r : ApiHandlers TState) (s : TState).
Implicit Types (h handler : ApiHandler TState) (hs : list (ApiHandler TState)).
Implicit Types (ops : list (Op (TState := TState))) (req : HttpRequest).

Lemma setup_spec s hs :
  ∃ r0, ApiHandlers.new hs = Return r0 ∧
        fst (setupStubServer s hs) = Return tt ∧
        Ready s r0 (snd (setupStubServer s hs)) ∧
        currentRegistry (snd (setupStubServer s hs)) = Some r0 ∧
        currentState (snd (setupStubServer s hs)) = Some s.
Proof.
  destruct (initialize_spec s hs (newWorld TState)) as (r0 & w1 & Hnew & Hinit & HR & Hc & Hs & _).
  exists r0. unfold setupStubServer. rewrite Hinit. done.
Qed.

Lemma reached_Ready s hs ops :
  ∃ r0, ApiHandlers.new hs = Return r0 ∧ Ready s r0 (reached s hs ops).
Proof.
  destruct (setup_spec s hs) as (r0 & Hnew & _ & HR & _).
  exists r0. split; [done|]. by apply Ready_runOps.
Qed.

Lemma Ready_current s0 r0 w :
  Ready s0 r0 w →
  (∃ r, currentRegistry w = Some r ∧ Reachable r) ∧ (∃ s, currentState w = Some s) ∧
  initialRegistrySnapshot w = Some r0 ∧ initialStateSnapshot w = Some s0.
Proof.
  intros [(l & r & Hl & Hr & Hreach) (ls & s & Hls & Hs) (li & Hli & Hi) (lh & Hlh & Hh) _ _ _].
  unfold currentRegistry, currentState, initialRegistrySnapshot, initialStateSnapshot.
  rewrite Hl, Hls, Hli, Hlh. cbn. eauto 10.
Qed.

(** C1.  In any world the backend can be in, a request that finds a handler
    runs it on the current state and checks what it returned.  A success
    response with a status outside [[200,300)], an error response with a status
    inside it, and anything that is neither make the subscriber function throw
    an error, after the [Sent] event and with nothing else passed to the
    observer; the subscription hands that error, not the outcome, to
    [observer.error].  A valid success response is passed, unchanged, to
    [observer.next] and followed by [complete]; a valid error response is
    passed, unchanged, to [observer.error]. *)
Theorem handle_checks_outcome s hs ops req handler :
  matchCurrent (reached s hs ops) (req_method req) (req_url req) = Return (Some handler) →
  ∃ st, currentState (reached s hs ops) = Some st ∧
    let out := fst (handle handler req responseBuilder st) in
    let sub := HttpClientStubBackend.subscriber handler req (reached s hs ops) in
    let res := HttpClientStubBackend.request req (reached s hs ops) in
    let seen := observer (reached s hs ops) in
    let rejected := λ e,
      fst sub = Throw e ∧ observer (snd sub) = seen ++ [next Sent] ∧
      fst res = Return tt ∧ observer (snd res) = seen ++ [next Sent; thrown e] in
    (∀ body n, out = HttpResponse body n → ¬ inSuccessRange n → rejected StatusNotOk) ∧
    (∀ body n, out = HttpErrorResponse body n → inSuccessRange n → rejected StatusOk) ∧
    (out = Nullish → rejected TypeError) ∧
    (∀ n, out = Foreign n → rejected InvalidResponse) ∧
    (∀ n, out = Unprintable n → rejected TypeError) ∧
    (∀ body n, out = HttpResponse body n → inSuccessRange n →
       fst sub = Return tt ∧ fst res = Return tt ∧
       observer (snd res) = seen ++ [next Sent; next (Response out); complete]) ∧
    (∀ body n, out = HttpErrorResponse body n → ¬ inSuccessRange n →
       fst sub = Return tt ∧ fst res = Return tt ∧
       observer (snd res) = seen ++ [next Sent; error_ out]).
Proof.
  intros Hmatch.
  destruct (reached_Ready s hs ops) as (r0 & _ & HR).
  set (w := reached s hs ops) in *.
  destruct (handle_spec s r0 w req HR) as (r & Hcur & _ & Hh).
  unfold matchCurrent in Hmatch. rewrite Hcur in Hmatch. rewrite Hmatch in Hh.
  destruct (subscriber_spec s r0 w handler req HR) as (l & st & Hl & Hst & Hsub).
  destruct (subscribe_spec s r0 w handler req HR) as (l' & st' & Hl' & Hst' & Hsubs).
  assert (l' = l) as -> by congruence. assert (st' = st) as -> by congruence.
  exists st. split; [by unfold currentState; rewrite Hl|].
  cbn zeta. unfold HttpClientStubBackend.request, bind. rewrite Hh, Hsub, Hsubs.
  cbn [fst snd observer].
  assert (∀ n, inSuccessRange n → statusOk (Some n) = true) as Hin.
  { intros n [??]. unfold statusOk. apply andb_true_intro. split; lia. }
  assert (∀ n, ¬ inSuccessRange n → statusOk (Some n) = false) as Hout.
  { intros n Hn. unfold statusOk. apply andb_false_iff.
    destruct (Z.leb_spec 200 n); [|by left]. right.
    destruct (Z.ltb_spec n 300); [|done]. destruct Hn. by split. }
  generalize (fst (handle handler req responseBuilder st)). intros out.
  split; [|split; [|split; [|split; [|split; [|split]]]]].
  - intros body n -> Hn. unfold delivery, verdict. by rewrite (Hout _ Hn).
  - intros body n -> Hn. unfold delivery, verdict. by rewrite (Hin _ Hn).
  - by intros ->.
  - by intros n ->.
  - by intros n ->.
  - intros body n -> Hn. unfold delivery, verdict. by rewrite (Hin _ Hn).
  - intros body n -> Hn. unfold delivery, verdict. by rewrite (Hout _ Hn).
Qed.

(** C2.  In any world the backend can be in, a request whose (method, url)
    pair is the pair of no entry of the current registry makes [handle] throw
    'No handler found for this request' at once: no observable is returned, so
    nothing is ever delivered, and the world (state, registry, observer) is
    what it was. *)
Theorem handle_without_handler s hs ops req :
  handlersRegistered (reached s hs ops) (req_method req) (req_url req) = [] →
  HttpClientStubBackend.handle req (reached s hs ops) =
    (Throw NoHandlerFound, reached s hs ops) ∧
  HttpClientStubBackend.request req (reached s hs ops) =
    (Throw NoHandlerFound, reached s hs ops).
Proof.
  intros Hno. destruct (reached_Ready s hs ops) as (r0 & _ & HR).
  set (w := reached s hs ops) in *.
  destruct (handle_spec s r0 w req HR) as (r & Hcur & Hreach & Hh).
  rewrite (match_unregistered r (req_method req) (req_url req)) in Hh.
  - split; [done|]. unfold HttpClientStubBackend.request, bind. by rewrite Hh.
  - by apply Reachable_wellFormed.
  - apply upperCase_own, req_method_upper.
  - intros h Hentry Hkey. unfold handlersRegistered in Hno. rewrite Hcur in Hno.
    apply (filter_nil_not_elem_of _ _ h Hno Hkey). by apply entry_entries.
Qed.

(** C3.  When the (method, url) pairs of [hs] are pairwise distinct, then
    after [initialize(s, hs)] the lookup of the pair of each handler of [hs]
    returns that handler; and whatever a lookup returns is a handler of [hs]
    whose method is the method asked for and whose url is, character for
    character, the url asked for. *)
Theorem initialize_then_match s hs :
  NoDup ((λ h, (method h, url h)) <$> hs) →
  fst (setupStubServer s hs) = Return tt ∧
  (∀ h, h ∈ hs →
     matchCurrent (snd (setupStubServer s hs)) (methodName (method h)) (url h)
     = Return (Some h)) ∧
  (∀ k u h, matchCurrent (snd (setupStubServer s hs)) k u = Return (Some h) →
     h ∈ hs ∧ methodName (method h) = k ∧ url h = u).
Proof.
  intros Hnd. destruct (setup_spec s hs) as (r & Hnew & Hret & HR & Hcur & _).
  split; [done|]. unfold matchCurrent. rewrite Hcur.
  assert (Reachable r) as Hreach.
  { destruct (new_Reachable hs) as (r' & Hnew' & ?). congruence. }
  pose proof (Reachable_wellFormed r Hreach) as Hwf.
  split.
  - intros h Hin. apply list_elem_of_split in Hin as (hs1 & hs2 & ->).
    assert (Forall (λ h', ¬ sameKey h' h) hs2) as HF.
    { rewrite fmap_app, fmap_cons in Hnd. apply NoDup_app in Hnd as (_ & _ & Hnd).
      apply NoDup_cons in Hnd as [Hnotin _]. apply Forall_forall.
      intros h' Hh' [Hm Hu]. apply Hnotin. apply list_elem_of_fmap.
      exists h'. split; [by rewrite Hm, Hu | done]. }
    destruct (registeredFor_putAll_last hs1 hs2 ApiHandlers.empty h (reachable_empty) HF)
      as (r' & Hall & _ & Hreg).
    assert (r' = r) as -> by (unfold ApiHandlers.new in Hnew; congruence).
    apply match_registered; [done| |done].
    assert (h ∈ registeredFor r (method h) (url h)) as Hin
      by (rewrite Hreg; by apply list_elem_of_singleton).
    unfold registeredFor in Hin. by apply list_elem_of_filter in Hin as [_ ?].
  - intros k u h Hm. apply match_found in Hm as (m & -> & Hmeth & Hu & Hin); [|done].
    split; [|by rewrite Hmeth].
    destruct (putAll_from hs ApiHandlers.empty r m h reachable_empty Hnew Hin) as [?|Hin']; [done|].
    rewrite handlersOf_empty in Hin'. by apply elem_of_nil in Hin'.
Qed.

(** C4.  In any world the backend can be in, the current registry [r] has at
    most one entry per (method, url) pair.  [put(h)] on it returns and keeps
    that: when an entry with the pair of [h] exists, at position [i] of the
    array of its method, the array becomes the same array with [h] at
    position [i]; when none exists, [h] is appended; the arrays of the other
    methods are untouched.  After [putHandlers] of a list in which [h] is the
    last handler of its pair, and after [initialize] with such a list, the
    registry has exactly one entry for that pair: [h]. *)
Theorem one_handler_per_key s hs ops h (hs1 hs2 : list (ApiHandler TState)) :
  Forall (λ h', ¬ sameKey h' h) hs2 →
  ∃ r, currentRegistry (reached s hs ops) = Some r ∧ atMostOne r ∧
    (∃ r1, ApiHandlers.put h r = Return r1 ∧ atMostOne r1 ∧
       (∀ i h0, handlersOf r (method h) !! i = Some h0 → url h0 = url h →
          handlersOf r1 (method h) = <[i := h]> (handlersOf r (method h))) ∧
       ((∀ h0, h0 ∈ handlersOf r (method h) → url h0 ≠ url h) →
          handlersOf r1 (method h) = handlersOf r (method h) ++ [h]) ∧
       (∀ m, m ≠ method h → handlersOf r1 m = handlersOf r m) ∧
       registeredFor r1 (method h) (url h) = [h]) ∧
    (fst (HttpClientStubBackend.putHandlers (hs1 ++ h :: hs2) (reached s hs ops)) = Return tt ∧
     ∃ r2, currentRegistry
             (snd (HttpClientStubBackend.putHandlers (hs1 ++ h :: hs2) (reached s hs ops)))
           = Some r2 ∧
           atMostOne r2 ∧ registeredFor r2 (method h) (url h) = [h]) ∧
    (fst (setupStubServer s (hs1 ++ h :: hs2)) = Return tt ∧
     ∃ r3, currentRegistry (snd (setupStubServer s (hs1 ++ h :: hs2))) = Some r3 ∧
           atMostOne r3 ∧ registeredFor r3 (method h) (url h) = [h]).
Proof.
  intros HF. destruct (reached_Ready s hs ops) as (r0 & _ & HR).
  set (w := reached s hs ops) in *.
  destruct (putHandlers_spec s r0 w (hs1 ++ h :: hs2) HR)
    as (l & r & r2 & Hl & Hr & Hall & Hreach2 & Hrun).
  destruct (ready_apiHandlers _ _ _ HR) as (l' & r' & Hl' & Hr' & Hreach).
  assert (l' = l) as -> by congruence. assert (r' = r) as -> by congruence.
  pose proof (Reachable_wellFormed r Hreach) as Hwf.
  exists r. split; [by unfold currentRegistry; rewrite Hl|].
  split; [by apply wellFormed_atMostOne|]. split; [|split].
  - pose proof (put_unfold r h Hwf) as Hput. eexists. split; [exact Hput|].
    pose proof (put_wellFormed r h _ Hwf Hput) as Hwf1.
    destruct (wellFormed_handlersOf r (method h) Hwf) as (_ & _ & Hnd).
    split; [by apply wellFormed_atMostOne|]. split; [|split; [|split]].
    + intros i h0 Hi Hu. rewrite (put_handlersOf r h _ (method h) Hwf Hput).
      destruct (decide (method h = method h)); [|done].
      by eapply putArray_replace.
    + intros Hnone. rewrite (put_handlersOf r h _ (method h) Hwf Hput).
      destruct (decide (method h = method h)); [|done].
      apply putArray_append. by apply Forall_forall.
    + intros m Hm. rewrite (put_handlersOf r h _ m Hwf Hput).
      by destruct (decide (m = method h)).
    + exact (registeredFor_put_same r h _ Hwf Hput).
  - rewrite Hrun. split; [done|]. exists r2. cbn. split.
    + unfold currentRegistry. cbn. rewrite Hl. cbn.
      apply list_lookup_insert_eq. by eapply lookup_lt_Some.
    + split; [by apply wellFormed_atMostOne, Reachable_wellFormed|].
      destruct (registeredFor_putAll_last hs1 hs2 r h Hreach HF) as (r2' & Hall' & _ & Hreg).
      congruence.
  - destruct (setup_spec s (hs1 ++ h :: hs2)) as (r3 & Hnew & Hret & _ & Hcur & _).
    split; [done|]. exists r3. split; [done|].
    destruct (registeredFor_putAll_last hs1 hs2 ApiHandlers.empty h reachable_empty HF)
      as (r3' & Hall' & Hreach3 & Hreg).
    assert (r3' = r3) as -> by (unfold ApiHandlers.new in Hnew; congruence).
    split; [by apply wellFormed_atMostOne, Reachable_wellFormed | done].
Qed.

(** C5.  Whatever was done to the backend since [initialize(s, hs)] (any
    sequence of [putHandlers] calls in particular), [resetHandlers] returns
    and leaves a current registry equal to the one [initialize] built from
    [hs], so that every lookup gives what it gave right after [initialize];
    a second [resetHandlers] in a row changes no lookup. *)
Theorem resetHandlers_restores s hs ops :
  let w1 := snd (setupStubServer s hs) in
  let w2 := runOps ops w1 in
  let w3 := snd (HttpClientStubBackend.resetHandlers w2) in
  let w4 := snd (HttpClientStubBackend.resetHandlers w3) in
  fst (HttpClientStubBackend.resetHandlers w2) = Return tt ∧
  fst (HttpClientStubBackend.resetHandlers w3) = Return tt ∧
  (∀ k u, matchCurrent w3 k u = matchCurrent w1 k u) ∧
  (∀ k u, matchCurrent w4 k u = matchCurrent w3 k u) ∧
  ∃ r0, ApiHandlers.new hs = Return r0 ∧
        currentRegistry w1 = Some r0 ∧ currentRegistry w3 = Some r0 ∧
        currentRegistry w4 = Some r0.
Proof.
  intros w1 w2 w3 w4.
  destruct (setup_spec s hs) as (r0 & Hnew & _ & HR1 & Hcur1 & _).
  fold w1 in HR1, Hcur1.
  pose proof (Ready_runOps s r0 ops w1 HR1) as HR2. fold w2 in HR2.
  pose proof (Ready_resetHandlers s r0 w2 HR2) as HR3. fold w3 in HR3.
  pose proof (resetHandlers_spec s r0 w2 HR2) as H2.
  pose proof (resetHandlers_spec s r0 w3 HR3) as H3.
  assert (currentRegistry w3 = Some r0) as Hcur3.
  { unfold w3. rewrite H2. unfold currentRegistry. cbn. apply lookup_snoc. }
  assert (currentRegistry w4 = Some r0) as Hcur4.
  { unfold w4. rewrite H3. unfold currentRegistry. cbn. apply lookup_snoc. }
  split; [by rewrite H2|]. split; [by rewrite H3|].
  split; [intros k u; unfold matchCurrent; by rewrite Hcur3, Hcur1|].
  split; [intros k u; unfold matchCurrent; by rewrite Hcur4, Hcur3|].
  by exists r0.
Qed.

(** C6.  Whatever was done to the backend since [initialize(s, hs)], requests
    whose handlers changed the state included, [resetState] returns and the
    current state is [s] again: the next handler call is made on [s].
    [resetState] leaves every registry object and the current registry as
    they were; [resetHandlers] leaves every state object and the current
    state as they were. *)
Theorem resetState_restores s hs ops handler req :
  let w := reached s hs ops in
  let w' := snd (HttpClientStubBackend.resetState w) in
  let w'' := snd (HttpClientStubBackend.resetHandlers w) in
  fst (HttpClientStubBackend.resetState w) = Return tt ∧
  currentState w' = Some s ∧
  fst (HttpClientStubBackend.callHandler handler req w') =
    Return (fst (handle handler req responseBuilder s)) ∧
  registries w' = registries w ∧
  currentRegistry w' = currentRegistry w ∧
  initialRegistrySnapshot w' = initialRegistrySnapshot w ∧
  fst (HttpClientStubBackend.resetHandlers w) = Return tt ∧
  states w'' = states w ∧
  currentState w'' = currentState w ∧
  initialStateSnapshot w'' = initialStateSnapshot w.
Proof.
  intros w w' w''. destruct (reached_Ready s hs ops) as (r0 & _ & HR). fold w in HR.
  pose proof (resetState_spec s r0 w HR) as HS.
  pose proof (resetHandlers_spec s r0 w HR) as HH.
  pose proof (Ready_resetState s r0 w HR) as HR'. fold w' in HR'.
  assert (currentState w' = Some s) as Hcur.
  { unfold w'. rewrite HS. unfold currentState. cbn. apply lookup_snoc. }
  split; [by rewrite HS|]. split; [done|]. split.
  { destruct (callHandler_spec s r0 w' handler req HR') as (l & st & Hl & Hst & ->).
    unfold currentState in Hcur. rewrite Hl in Hcur. cbn in Hcur. cbn. congruence. }
  unfold w', w''. rewrite HS, HH.
  unfold currentRegistry, currentState, initialRegistrySnapshot, initialStateSnapshot.
  cbn. done.
Qed.

(** C8.  In any world the backend can be in, [putHandlers] returns and changes
    one object only, the current registry: the four fields, every state
    object, the initial registry and the initial state are what they were,
    and a [resetHandlers] after it gives the registry [initialize] built. *)
Theorem putHandlers_frame s hs ops (hs' : list (ApiHandler TState)) :
  let w := reached s hs ops in
  let w' := snd (HttpClientStubBackend.putHandlers hs' w) in
  fst (HttpClientStubBackend.putHandlers hs' w) = Return tt ∧
  this w' = this w ∧ states w' = states w ∧ observer w' = observer w ∧
  (∀ l, apiHandlers (this w) ≠ Some l → registries w' !! l = registries w !! l) ∧
  initialRegistrySnapshot w' = initialRegistrySnapshot w ∧
  initialStateSnapshot w' = initialStateSnapshot w ∧
  currentState w' = currentState w ∧
  ∃ r0, ApiHandlers.new hs = Return r0 ∧ initialRegistrySnapshot w' = Some r0 ∧
        currentRegistry (snd (HttpClientStubBackend.resetHandlers w')) = Some r0.
Proof.
  intros w w'. destruct (reached_Ready s hs ops) as (r0 & Hnew & HR). fold w in HR.
  destruct (putHandlers_spec s r0 w hs' HR) as (l & r & r' & Hl & Hr & _ & Hreach & Hrun).
  pose proof (Ready_putHandlers s r0 w hs' HR) as HR'. fold w' in HR'.
  pose proof (resetHandlers_spec s r0 w' HR') as HH.
  destruct (Ready_current s r0 w HR) as (_ & _ & Hi & His).
  destruct (Ready_current s r0 w' HR') as (_ & _ & Hi' & His').
  split; [by rewrite Hrun|].
  assert (this w' = this w ∧ states w' = states w ∧ observer w' = observer w ∧
          registries w' = <[l := r']> (registries w)) as (Ht & Hs & Ho & Hreg).
  { unfold w'. by rewrite Hrun. }
  split; [done|]. split; [done|]. split; [done|]. split.
  { intros l0 Hl0. rewrite Hreg. apply list_lookup_insert_ne. congruence. }
  split; [congruence|]. split; [congruence|]. split.
  { unfold currentState. by rewrite Ht, Hs. }
  exists r0. split; [done|]. split; [done|].
  rewrite HH. unfold currentRegistry. cbn. apply lookup_snoc.
Qed.

(** A method string that is the name of a property every object inherits,
    such as "constructor", makes the lookup throw a [TypeError]: the table's
    [handlersByMethod[method]] is then the inherited value, which is not
    [undefined] and has no [find]. *)
Lemma match_inherited_key_throws s hs ops u :
  matchCurrent (reached s hs ops) "constructor" u = Throw TypeError.
Proof.
  destruct (reached_Ready s hs ops) as (r0 & _ & HR).
  destruct (Ready_current s r0 _ HR) as ((r & Hcur & Hreach) & _).
  unfold matchCurrent. rewrite Hcur.
  rewrite match_unknown; [done|by apply Reachable_wellFormed|].
  by intros [].
Qed.



(** C10.  In any world the backend can be in, a handler returned by the
    lookup of ([k], [u]) has method [k] and url [u]. *)
Theorem match_sound s hs ops k u h :
  matchCurrent (reached s hs ops) k u = Return (Some h) →
  methodName (method h) = k ∧ url h = u.
Proof.
  destruct (reached_Ready s hs ops) as (r0 & _ & HR).
  destruct (Ready_current s r0 _ HR) as ((r & Hcur & Hreach) & _).
  unfold matchCurrent. rewrite Hcur. intros Hm.
  apply match_found in Hm as (m & -> & <- & Hu & _); [done|].
  by apply Reachable_wellFormed.
Qed.

End Properties.

(** C7, as the code has it.  The builder hands the status it is given to the
    response it builds, without looking at it: [ok] gives a success response
    with that status (and the body, [null] for [undefined]), [error] an error
    response with that status (and the message, [null] for the empty string).
    So what [ok] built has its status in [[200,300)] exactly when the status
    passed was in it, and what [error] built has its status outside exactly
    when the status passed was.  The range is enforced when the outcome is
    checked: in any world the backend can be in, the subscriber function for
    a handler that answers [res.ok({body, status})] returns when the status is
    in range and throws otherwise, and for a handler that answers
    [res.error({body, status})] it throws when the status is in range and
    returns otherwise. *)
Theorem responseBuilder_passes_status {TState : Type} (s : TState)
    (hs : list (ApiHandler TState)) (ops : list (Op (TState := TState)))
    (req : HttpRequest) (m : HttpMethod) (u : string)
    (body : JsValue) (message : string) (status : Z) :
  ok responseBuilder body status =
    HttpResponse (match body with JUndefined => JNull | _ => body end) status ∧
  error responseBuilder message status =
    HttpErrorResponse (if decide (message = "") then JNull else JString message) status ∧
  (validOutcome (ok responseBuilder body status) ↔ inSuccessRange status) ∧
  (validOutcome (error responseBuilder message status) ↔ ¬ inSuccessRange status) ∧
  let answerOk := Build_ApiHandler m u (λ _ res st, (ok res body status, st)) in
  let answerError := Build_ApiHandler m u (λ _ res st, (error res message status, st)) in
  (inSuccessRange status →
     fst (HttpClientStubBackend.subscriber answerOk req (reached s hs ops)) = Return tt ∧
     fst (HttpClientStubBackend.subscriber answerError req (reached s hs ops))
       = Throw StatusOk) ∧
  (¬ inSuccessRange status →
     fst (HttpClientStubBackend.subscriber answerOk req (reached s hs ops))
       = Throw StatusNotOk ∧
     fst (HttpClientStubBackend.subscriber answerError req (reached s hs ops)) = Return tt).
Proof.
  split; [reflexivity|]. split; [by destruct message|].
  split; [reflexivity|]. split; [reflexivity|]. cbn zeta.
  destruct (reached_Ready s hs ops) as (r0 & _ & HR).
  assert (∀ n, inSuccessRange n → statusOk (Some n) = true) as Hin.
  { intros n [??]. unfold statusOk. apply andb_true_intro. split; lia. }
  assert (∀ n, ¬ inSuccessRange n → statusOk (Some n) = false) as Hout.
  { intros n Hn. unfold statusOk. apply andb_false_iff.
    destruct (Z.leb_spec 200 n); [|by left]. right.
    destruct (Z.ltb_spec n 300); [|done]. destruct Hn. by split. }
  split; intros Hn; split.
  all: match goal with
       | |- fst (HttpClientStubBackend.subscriber ?h _ _) = _ =>
           destruct (subscriber_spec s r0 _ h req HR) as (l & st & _ & _ & ->)
       end.
  all: cbn [fst handle ok error responseBuilder newHttpResponse newHttpErrorResponse verdict].
  all: rewrite ?(Hin _ Hn), ?(Hout _ Hn); reflexivity.
Qed.

(** [ok] with status 404 builds a success response with status 404. *)
Lemma responseBuilder_ok_404 :
  ok responseBuilder JNull 404 = HttpResponse JNull 404 ∧
  ¬ validOutcome (ok responseBuilder JNull 404).
Proof. split; [reflexivity|]. cbn. unfold inSuccessRange. lia. Qed.

(** ** The properties at work on the scenario of the test suite *)

Section ScenarioChecks.
Import Scenario.

(** 'Get a stub value' *)
Example get_a_stub_value :
  delivered (reached initialState [getUsers; getProjects] [Request GET_users]) =
  [JArray [userBody Alice; userBody Bob]].
Proof. reflexivity. Qed.

(** 'Put handler', then 'Reset handlers' *)
Example put_then_reset_handlers :
  delivered (reached initialState [getUsers; getProjects]
               [PutHandlers [putUsers]; Request GET_users;
                ResetHandlers; Request GET_users]) =
  [JArray [userBody {| user_id := 100; user_name := "Put User" |}];
   JArray [userBody Alice; userBody Bob]].
Proof. reflexivity. Qed.

(** 'Reset state': each call of the pushing handler adds one user to the
    state, and [resetState] drops what was added. *)
Example push_then_reset_state :
  delivered (reached initialState [getUsers; getProjects]
               [PutHandlers [pushUser]; Request GET_users; Request GET_users;
                ResetState; Request GET_users]) =
  [JArray [userBody Alice; userBody Bob; userBody Override];
   JArray [userBody Alice; userBody Bob; userBody Override; userBody Override];
   JArray [userBody Alice; userBody Bob; userBody Override]].
Proof. reflexivity. Qed.

Lemma handle_checks_outcome_witness :
  matchCurrent (reached initialState [getUsers; postNotFound] [])
    (req_method POST_users) (req_url POST_users) = Return (Some postNotFound) ∧
  fst (HttpClientStubBackend.subscriber postNotFound POST_users
         (reached initialState [getUsers; postNotFound] [])) = Throw StatusNotOk ∧
  fst (HttpClientStubBackend.request POST_users
         (reached initialState [getUsers; postNotFound] [])) = Return tt ∧
  observer (snd (HttpClientStubBackend.request POST_users
                   (reached initialState [getUsers; postNotFound] []))) =
  [next Sent; thrown StatusNotOk].
Proof.
  split; [reflexivity|].
  destruct (handle_checks_outcome initialState [getUsers; postNotFound] []
              POST_users postNotFound eq_refl) as (st & Hst & Hbad & _).
  destruct (Hbad JNull 404%Z) as (Hsub & _ & Hres & Hobs).
  - vm_compute in Hst. injection Hst as <-. reflexivity.
  - unfold inSuccessRange. lia.
  - split; [exact Hsub|]. split; [exact Hres|exact Hobs].
Defined.

Lemma handle_without_handler_witness :
  handlersRegistered (reached initialState [getUsers; getProjects] [])
    (req_method GET_users_slash) (req_url GET_users_slash) = [] ∧
  HttpClientStubBackend.handle GET_users_slash
    (reached initialState [getUsers; getProjects] []) =
  (Throw NoHandlerFound, reached initialState [getUsers; getProjects] []).
Proof.
  split; [vm_compute; reflexivity|].
  apply (handle_without_handler initialState [getUsers; getProjects] [] GET_users_slash).
  vm_compute. reflexivity.
Defined.

Lemma initialize_then_match_witness :
  NoDup ((λ h, (method h, url h)) <$> [getUsers; getProjects]) ∧
  matchCurrent (snd (setupStubServer initialState [getUsers; getProjects]))
    "GET" "/projects" = Return (Some getProjects).
Proof.
  assert (NoDup ((λ h, (method h, url h)) <$> [getUsers; getProjects])) as Hnd.
  { cbn. apply NoDup_cons. split; [|apply NoDup_singleton].
    intros Hin. apply list_elem_of_singleton in Hin. discriminate Hin. }
  split; [exact Hnd|].
  destruct (initialize_then_match initialState [getUsers; getProjects] Hnd) as (_ & Hall & _).
  apply (Hall getProjects). right. left.
Defined.

Lemma one_handler_per_key_witness :
  Forall (λ h', ¬ sameKey h' putUsers) [getProjects] ∧
  ∃ r2,
    currentRegistry
      (snd (HttpClientStubBackend.putHandlers ([pushUser] ++ putUsers :: [getProjects])
              (reached initialState [getUsers; getProjects] []))) = Some r2 ∧
    atMostOne r2 ∧ registeredFor r2 GET "/users" = [putUsers].
Proof.
  assert (Forall (λ h', ¬ sameKey h' putUsers) [getProjects]) as HF.
  { constructor; [|constructor]. intros [_ Hu]. discriminate Hu. }
  split; [exact HF|].
  destruct (one_handler_per_key initialState [getUsers; getProjects] [] putUsers
              [pushUser] [getProjects] HF)
    as (r & _ & _ & _ & (_ & r2 & Hcur & Hone & Hreg) & _).
  exists r2. split; [exact Hcur|]. split; [exact Hone|exact Hreg].
Defined.

Lemma match_sound_witness :
  matchCurrent (reached initialState [getUsers; getProjects] [PutHandlers [putUsers]])
    "GET" "/users" = Return (Some putUsers) ∧
  methodName (method putUsers) = "GET" ∧ url putUsers = "/users".
Proof.
  split; [reflexivity|].
  apply (match_sound initialState [getUsers; getProjects] [PutHandlers [putUsers]]
           "GET" "/users" putUsers).
  reflexivity.
Defined.



End ScenarioChecks.

(** ** Further properties of the code *)

Section Lookup.
Context {TState : Type}.
Implicit Types (w : World TState) (r : ApiHandlers TState) (s : TState).
Implicit Types (h handler : ApiHandler TState) (hs l : list (ApiHandler TState)).
Implicit Types (k u : string).

Lemma find_cons {A} (p : A → bool) (x : A) (xs : list A) :
  find p (x :: xs) = if p x then Some x else find p xs.
Proof.
  unfold find. cbn. destruct (p x); cbn; [done|].
  by destruct (list_find _ xs) as [[i y]|].
Qed.

Lemma find_app {A} (p : A → bool) (xs ys : list A) :
  find p (xs ++ ys) = match find p xs with Some x => Some x | None => find p ys end.
Proof.
  induction xs as [|x xs IH]; [done|].
  cbn [app]. rewrite !find_cons. by destruct (p x).
Qed.

Lemma find_insert_out {A} (p : A → bool) (xs : list A) i x y :
  xs !! i = Some x → p x = false → p y = false → find p (<[i := y]> xs) = find p xs.
Proof.
  revert i. induction xs as [|a xs IH]; intros [|i] Hi Hx Hy; try done.
  - injection Hi as ->. cbn. by rewrite !find_cons, Hx, Hy.
  - cbn. rewrite !find_cons. destruct (p a); [done|]. by eapply IH.
Qed.

Lemma find_putArray h l u :
  find (λ h0, bool_decide (url h0 = u)) (putArray h l) =
  if decide (u = url h) then Some h else find (λ h0, bool_decide (url h0 = u)) l.
Proof.
  unfold putArray.
  set (q := λ h1 : ApiHandler TState, bool_decide (url h1 = url h)).
  destruct (Z.eqb_spec (findIndex q l) (-1)) as [E|E].
  - apply findIndex_none in E. rewrite find_app, find_cons. cbn [find].
    destruct (decide (u = url h)) as [->|Hu].
    + rewrite bool_decide_eq_true_2 by done.
      assert (find q l = None) as Hn by (by apply find_none).
      unfold q in Hn. by rewrite Hn.
    + rewrite bool_decide_eq_false_2 by congruence.
      by destruct (find _ l).
  - apply findIndex_some in E as (x & Hx & Hp & Hbefore).
    unfold q in Hp. apply bool_decide_eq_true in Hp.
    destruct (decide (u = url h)) as [->|Hu].
    + apply find_some. exists (Z.to_nat (findIndex q l)). split.
      * apply list_lookup_insert_eq. by eapply lookup_lt_Some.
      * split; [by apply bool_decide_eq_true|].
        intros j y Hj Hlt. rewrite list_lookup_insert_ne in Hj by lia.
        by apply (Hbefore j y).
    + eapply find_insert_out; [exact Hx| |]; apply bool_decide_eq_false; congruence.
Qed.

(** The lookups after a [put]. *)
Lemma match_after_put r h r' k u :
  wellFormed r → ApiHandlers.put h r = Return r' →
  ApiHandlers.match_ r' k u =
  if decide (methodName (method h) = k ∧ url h = u) then Return (Some h)
  else ApiHandlers.match_ r k u.
Proof.
  intros Hwf Hput. pose proof (put_wellFormed r h r' Hwf Hput) as Hwf'.
  destruct (decide (k = methodName (method h))) as [->|Hk].
  - rewrite (match_method r' (method h) u Hwf'), (match_method r (method h) u Hwf).
    rewrite (put_handlersOf r h r' (method h) Hwf Hput).
    destruct (decide (method h = method h)); [|done].
    rewrite find_putArray.
    destruct (decide (u = url h)) as [->|Hu].
    + by rewrite decide_True.
    + rewrite decide_False; [done|]. intros [_ ?]. congruence.
  - rewrite decide_False by (intros [? _]; congruence).
    rewrite (put_unfold r h Hwf) in Hput. injection Hput as <-.
    unfold ApiHandlers.match_, getProperty. cbn [handlersByMethod].
    by rewrite lookup_insert_ne by congruence.
Qed.

Lemma lastFor_cons k u h hs :
  lastFor k u (h :: hs) =
  match lastFor k u hs with
  | Some h' => Some h'
  | None => if decide (methodName (method h) = k ∧ url h = u) then Some h else None
  end.
Proof.
  unfold lastFor. rewrite filter_cons.
  destruct (decide (methodName (method h) = k ∧ url h = u)); [|by destruct (last _)].
  rewrite last_cons. by destruct (last _).
Qed.

(** The lookups after a run of [put]s: the last handler put for the pair, or
    what was there. *)
Lemma match_after_putAll hs r r' k u :
  Reachable r → ApiHandlers.putAll hs r = Return r' →
  ApiHandlers.match_ r' k u =
  match lastFor k u hs with
  | Some h => Return (Some h)
  | None => ApiHandlers.match_ r k u
  end.
Proof.
  revert r. induction hs as [|h hs IH]; intros r Hr; cbn [ApiHandlers.putAll].
  - by intros [= ->].
  - destruct (ApiHandlers.put h r) as [r1|e] eqn:Hput; [|done]. intros Hall.
    rewrite (IH r1 (reachable_put _ _ _ Hr Hput) Hall), lastFor_cons.
    destruct (lastFor k u hs); [done|].
    rewrite (match_after_put r h r1 k u (Reachable_wellFormed r Hr) Hput).
    by destruct (decide _).
Qed.

Lemma match_empty k u :
  ApiHandlers.match_ (ApiHandlers.empty (TState := TState)) k u =
  if bool_decide (k ∈ objectPrototypeKeys) then Throw TypeError else Return None.
Proof.
  unfold ApiHandlers.match_, getProperty.
  destruct (handlersByMethod ApiHandlers.empty !! k) as [l|] eqn:Hl.
  - apply empty_lookup in Hl as (m & -> & ->). by rewrite methodName_own.
  - by destruct (bool_decide _).
Qed.

End Lookup.

Section Further.
Context {TState : Type}.
Implicit Types (w : World TState) (r : ApiHandlers TState) (s : TState).
Implicit Types (h handler : ApiHandler TState) (hs : list (ApiHandler TState)).
Implicit Types (ops : list (Op (TState := TState))) (req : HttpRequest) (k u : string).

(** [handle] and the subscriber function in a world whose fields refer to
    objects, whether or not it came out of [initialize]. *)
Lemma handle_at w l r req :
  apiHandlers (this w) = Some l → registries w !! l = Some r →
  HttpClientStubBackend.handle req w =
    (match ApiHandlers.match_ r (req_method req) (req_url req) with
     | Return (Some handler) => Return (HttpClientStubBackend.subscriber handler req)
     | Return None => Throw NoHandlerFound
     | Throw e => Throw e
     end, w).
Proof.
  intros Hl Hr.
  unfold HttpClientStubBackend.handle, bind, getThis, defined, readRegistry, lift.
  rewrite Hl. cbn. rewrite Hr.
  by destruct (ApiHandlers.match_ r (req_method req) (req_url req)) as [[handler|]|e].
Qed.

Lemma subscriber_at w l st handler req :
  state (this w) = Some l → states w !! l = Some st →
  HttpClientStubBackend.subscriber handler req w =
    (fst (verdict (fst (handle handler req responseBuilder st))),
     Build_World (<[l := snd (handle handler req responseBuilder st)]> (states w))
       (registries w) (this w)
       (observer w ++ snd (verdict (fst (handle handler req responseBuilder st))))).
Proof.
  intros Hl Hs.
  unfold HttpClientStubBackend.subscriber, HttpClientStubBackend.callHandler.
  unfold bind at 1 2 3 4. unfold getThis, defined. rewrite Hl. cbn.
  unfold readState. rewrite Hs. cbn.
  destruct (fst (handle handler req responseBuilder st)) as [b n|e n| |n|n]; cbn;
    unfold bind, emit, HttpClientStubBackend.statusOf, ret, throw; cbn.
  - destruct ((200 <=? n)%Z && (n <? 300)%Z); cbn; [|done].
    by rewrite <- !app_assoc.
  - destruct ((200 <=? n)%Z && (n <? 300)%Z); cbn; [done|].
    by rewrite <- !app_assoc.
  - done.
  - done.
  - done.
Qed.

Lemma subscribe_at w l st handler req :
  state (this w) = Some l → states w !! l = Some st →
  HttpClientStubBackend.subscribe (HttpClientStubBackend.subscriber handler req) w =
    (Return tt,
     Build_World (<[l := snd (handle handler req responseBuilder st)]> (states w))
       (registries w) (this w)
       (observer w ++ delivery (fst (handle handler req responseBuilder st)))).
Proof.
  intros Hl Hs.
  rewrite (subscribe_after _ _ _ _ _ _ _ (subscriber_at w l st handler req Hl Hs)).
  unfold delivery.
  destruct (verdict (fst (handle handler req responseBuilder st))) as [[[]|e] calls]; cbn.
  - by rewrite app_nil_r.
  - by rewrite app_assoc.
Qed.

Lemma handle_request_at w l r req :
  apiHandlers (this w) = Some l → registries w !! l = Some r →
  HttpClientStubBackend.request req w =
    match ApiHandlers.match_ r (req_method req) (req_url req) with
    | Return (Some handler) =>
        HttpClientStubBackend.subscribe (HttpClientStubBackend.subscriber handler req) w
    | Return None => (Throw NoHandlerFound, w)
    | Throw e => (Throw e, w)
    end.
Proof.
  intros Hl Hr. unfold HttpClientStubBackend.request, bind.
  rewrite (handle_at w l r req Hl Hr).
  by destruct (ApiHandlers.match_ r (req_method req) (req_url req)) as [[handler|]|e].
Qed.

(** X1.  A backend on which [initialize] was never called: [handle], and
    [putHandlers] with at least one handler, throw a [TypeError] (they go
    through [this.apiHandlers], which is [undefined]) and change nothing;
    [putHandlers()] with no handler returns. *)
Theorem uninitialized_backend w req h hs :
  apiHandlers (this w) = None →
  HttpClientStubBackend.handle req w = (Throw TypeError, w) ∧
  HttpClientStubBackend.request req w = (Throw TypeError, w) ∧
  HttpClientStubBackend.putHandlers (h :: hs) w = (Throw TypeError, w) ∧
  HttpClientStubBackend.putHandlers [] w = (Return tt, w).
Proof.
  intros Hnone.
  assert (HttpClientStubBackend.handle req w = (Throw TypeError, w)) as Hh.
  { unfold HttpClientStubBackend.handle, bind, getThis, defined. by rewrite Hnone. }
  split; [done|]. split; [|split; [|done]].
  - unfold HttpClientStubBackend.request, bind. by rewrite Hh.
  - cbn [HttpClientStubBackend.putHandlers].
    unfold bind, HttpClientStubBackend.putHandler, bind, getThis, defined.
    by rewrite Hnone.
Qed.

(** X2.  The lookups after [putHandlers(...hs)], in any world the backend can
    be in: a pair for which [hs] has handlers gets the last of them; every
    other lookup gives what it gave before. *)
Theorem putHandlers_lookup s hs0 ops hs k u :
  matchCurrent (snd (HttpClientStubBackend.putHandlers hs (reached s hs0 ops))) k u =
  match lastFor k u hs with
  | Some h => Return (Some h)
  | None => matchCurrent (reached s hs0 ops) k u
  end.
Proof.
  destruct (reached_Ready s hs0 ops) as (r0 & _ & HR).
  set (w := reached s hs0 ops) in *.
  destruct (putHandlers_spec s r0 w hs HR) as (l & r & r' & Hl & Hr & Hall & Hreach & ->).
  destruct (ready_apiHandlers _ _ _ HR) as (l' & r1 & Hl' & Hr1 & Hreach1).
  assert (l' = l) as -> by congruence. assert (r1 = r) as -> by congruence.
  unfold matchCurrent, currentRegistry. cbn. rewrite Hl. cbn.
  rewrite list_lookup_insert_eq by (by eapply lookup_lt_Some). rewrite Hr.
  by apply match_after_putAll.
Qed.

(** X3.  The lookups after [initialize(s, hs)], for any list [hs], repeated
    pairs included: the last handler of [hs] for the pair; with none, a
    [TypeError] for a method string that names an inherited property and
    [undefined] for any other. *)
Theorem initialize_lookup s hs k u :
  matchCurrent (snd (setupStubServer s hs)) k u =
  match lastFor k u hs with
  | Some h => Return (Some h)
  | None => if bool_decide (k ∈ objectPrototypeKeys) then Throw TypeError else Return None
  end.
Proof.
  destruct (setup_spec s hs) as (r & Hnew & _ & _ & Hcur & _).
  unfold matchCurrent. rewrite Hcur.
  rewrite (match_after_putAll hs ApiHandlers.empty r k u reachable_empty Hnew).
  by rewrite match_empty.
Qed.

Lemma putArray_absorbs h1 h2 (l : list (ApiHandler TState)) :
  NoDup (url <$> l) → url h1 = url h2 →
  putArray h2 (putArray h1 l) = putArray h2 l.
Proof.
  intros Hnd Hu.
  pose proof (putArray_urls h1 l Hnd) as Hnd1.
  destruct (putArray_cases h1 l) as [[HF E]|(i & h0 & Hi & Hu0 & E)]; rewrite E in *.
  - rewrite (putArray_replace h2 (l ++ [h1]) (length l) h1 Hnd1 (lookup_snoc l h1) Hu).
    rewrite putArray_append.
    + rewrite insert_app_r_alt by lia. by rewrite Nat.sub_diag.
    + eapply Forall_impl; [exact HF|]. intros x Hx. cbn in Hx. congruence.
  - assert (i < length l) as Hlt by (by eapply lookup_lt_Some).
    rewrite (putArray_replace h2 (<[i := h1]> l) i h1 Hnd1
               (list_lookup_insert_eq l i h1 Hlt) Hu).
    rewrite list_insert_insert_eq.
    symmetry. eapply putArray_replace; [done|exact Hi|congruence].
Qed.

Lemma put_absorbs r h1 h2 r1 :
  wellFormed r → sameKey h1 h2 → ApiHandlers.put h1 r = Return r1 →
  ApiHandlers.put h2 r1 = ApiHandlers.put h2 r.
Proof.
  intros Hwf [Hm Hu] Hp1.
  pose proof (put_wellFormed r h1 r1 Hwf Hp1) as Hwf1.
  rewrite (put_unfold r1 h2 Hwf1), (put_unfold r h2 Hwf).
  rewrite (put_handlersOf r h1 r1 (method h2) Hwf Hp1).
  rewrite decide_True by done.
  destruct (wellFormed_handlersOf r (method h2) Hwf) as (_ & _ & Hnd).
  rewrite (putArray_absorbs h1 h2 _ Hnd Hu).
  rewrite (put_unfold r h1 Hwf) in Hp1. injection Hp1 as <-.
  cbn [handlersByMethod]. rewrite Hm. by rewrite insert_insert_eq.
Qed.

(** X4.  Two handlers for the same pair put one after the other leave the
    world exactly as the second alone does: the first is replaced where it
    was put.  With [h1 = h2]: putting a handler twice is putting it once. *)
Theorem putHandlers_same_key_absorbs s hs0 ops h1 h2 :
  sameKey h1 h2 →
  HttpClientStubBackend.putHandlers [h1; h2] (reached s hs0 ops) =
  HttpClientStubBackend.putHandlers [h2] (reached s hs0 ops).
Proof.
  intros Hkey. destruct (reached_Ready s hs0 ops) as (r0 & _ & HR).
  set (w := reached s hs0 ops) in *.
  destruct (putHandlers_spec s r0 w [h1; h2] HR) as (l & r & r12 & Hl & Hr & H12 & _ & ->).
  destruct (putHandlers_spec s r0 w [h2] HR) as (l' & r' & r2 & Hl' & Hr' & H2 & _ & ->).
  assert (l' = l) as -> by congruence. assert (r' = r) as -> by congruence.
  destruct (ready_apiHandlers _ _ _ HR) as (l' & r1 & Hl1 & Hr1 & Hreach).
  assert (l' = l) as -> by congruence. assert (r1 = r) as -> by congruence.
  pose proof (Reachable_wellFormed r Hreach) as Hwf.
  cbn in H12, H2.
  destruct (ApiHandlers.put h1 r) as [r1|e] eqn:Hp1; [|done].
  rewrite (put_absorbs r h1 h2 r1 Hwf Hkey Hp1) in H12.
  destruct (ApiHandlers.put h2 r) as [r2'|e]; [|done].
  congruence.
Qed.

(** X5.  [putHandlers] of a list in two calls is [putHandlers] of the whole
    list, in any world, an error in the middle included. *)
Theorem putHandlers_app (hs1 hs2 : list (ApiHandler TState)) w :
  HttpClientStubBackend.putHandlers (hs1 ++ hs2) w =
  bind (HttpClientStubBackend.putHandlers hs1)
       (λ _, HttpClientStubBackend.putHandlers hs2) w.
Proof.
  revert w. induction hs1 as [|h hs1 IH]; intros w; [done|].
  cbn [app HttpClientStubBackend.putHandlers]. unfold bind in *.
  destruct (HttpClientStubBackend.putHandler h w) as [[a|e] w1]; [apply IH|done].
Qed.

(** X6.  [handle] runs no handler: in any world the backend can be in it
    leaves the world as it is, and what it returns for a request that finds
    [handler] is the subscriber function for that handler. *)
Theorem handle_is_lazy s hs ops req :
  snd (HttpClientStubBackend.handle req (reached s hs ops)) = reached s hs ops ∧
  ∀ handler,
    matchCurrent (reached s hs ops) (req_method req) (req_url req) = Return (Some handler) →
    fst (HttpClientStubBackend.handle req (reached s hs ops)) =
    Return (HttpClientStubBackend.subscriber handler req).
Proof.
  destruct (reached_Ready s hs ops) as (r0 & _ & HR).
  set (w := reached s hs ops) in *.
  destruct (handle_spec s r0 w req HR) as (r & Hcur & _ & ->).
  split; [done|]. intros handler. unfold matchCurrent. rewrite Hcur. by intros ->.
Qed.

(** X7.  A subscription runs the handler on the state that is current when it
    is made, and the state the handler leaves is the current state afterwards,
    also when the response is then rejected with an error.  The registry
    objects, the fields and the initial state are not touched. *)
Theorem subscriber_state_persists s hs ops handler req :
  ∃ st, currentState (reached s hs ops) = Some st ∧
    let w' := snd (HttpClientStubBackend.subscriber handler req (reached s hs ops)) in
    currentState w' = Some (snd (handle handler req responseBuilder st)) ∧
    registries w' = registries (reached s hs ops) ∧
    this w' = this (reached s hs ops) ∧
    initialStateSnapshot w' = Some s.
Proof.
  destruct (reached_Ready s hs ops) as (r0 & _ & HR).
  set (w := reached s hs ops) in *.
  pose proof (Ready_subscriber s r0 w handler req HR) as HR'.
  destruct (Ready_current s r0 _ HR') as (_ & _ & _ & Hinit).
  destruct (ready_state _ _ _ HR) as (l & st & Hl & Hst).
  exists st. split; [by unfold currentState; rewrite Hl|]. cbn zeta.
  split; [|split; [|split]]; [| | |exact Hinit].
  all: rewrite (subscriber_at w l st handler req Hl Hst).
  - unfold currentState. cbn. rewrite Hl. cbn.
    apply list_lookup_insert_eq. by eapply lookup_lt_Some.
  - done.
  - done.
Qed.

Lemma delivery_wellDelivered (out : StubResponse) :
  Forall wellDelivered (delivery out).
Proof.
  assert (∀ n, statusOk (Some n) = true → inSuccessRange n) as Hin.
  { intros n H. unfold statusOk in H. apply andb_prop in H as [??].
    unfold inSuccessRange. lia. }
  assert (∀ n, statusOk (Some n) = false → ¬ inSuccessRange n) as Hout.
  { intros n H [??]. unfold statusOk in H. apply andb_false_iff in H as [H|H]; lia. }
  assert (∀ e, Forall wellDelivered [next Sent; thrown e]) as Hthrown.
  { intros e. apply Forall_cons. split; [exact I|]. apply Forall_cons.
    split; [exact I|]. apply Forall_nil_2. }
  destruct out as [b n|e n| |n|n]; unfold delivery, verdict.
  - destruct (statusOk (Some n)) eqn:E; [|apply Hthrown].
    apply Forall_cons. split; [exact I|]. apply Forall_cons. split; [by apply Hin|].
    apply Forall_cons. split; [exact I|]. apply Forall_nil_2.
  - destruct (statusOk (Some n)) eqn:E; [apply Hthrown|].
    apply Forall_cons. split; [exact I|]. apply Forall_cons. split; [by apply Hout|].
    apply Forall_nil_2.
  - apply Hthrown.
  - apply Hthrown.
  - apply Hthrown.
Qed.

(** What each operation does to the current state, the current registry and
    the observer. *)
Lemma runOp_effect s0 r0 w o :
  Ready s0 r0 w →
  ∃ st r, currentState w = Some st ∧ currentRegistry w = Some r ∧ Reachable r ∧
    match o with
    | PutHandlers hs =>
        ∃ r', ApiHandlers.putAll hs r = Return r' ∧
          fst (runOp o w) = Return tt ∧
          currentState (snd (runOp o w)) = Some st ∧
          currentRegistry (snd (runOp o w)) = Some r' ∧
          observer (snd (runOp o w)) = observer w
    | ResetHandlers =>
        fst (runOp o w) = Return tt ∧
        currentState (snd (runOp o w)) = Some st ∧
        currentRegistry (snd (runOp o w)) = Some r0 ∧
        observer (snd (runOp o w)) = observer w
    | ResetState =>
        fst (runOp o w) = Return tt ∧
        currentState (snd (runOp o w)) = Some s0 ∧
        currentRegistry (snd (runOp o w)) = Some r ∧
        observer (snd (runOp o w)) = observer w
    | Subscribe handler req =>
        fst (runOp o w) = Return tt ∧
        currentState (snd (runOp o w)) = Some (snd (handle handler req responseBuilder st)) ∧
        currentRegistry (snd (runOp o w)) = Some r ∧
        observer (snd (runOp o w)) =
          observer w ++ delivery (fst (handle handler req responseBuilder st))
    | Request req =>
        match ApiHandlers.match_ r (req_method req) (req_url req) with
        | Return (Some handler) =>
            fst (runOp o w) = Return tt ∧
            currentState (snd (runOp o w)) = Some (snd (handle handler req responseBuilder st)) ∧
            currentRegistry (snd (runOp o w)) = Some r ∧
            observer (snd (runOp o w)) =
              observer w ++ delivery (fst (handle handler req responseBuilder st))
        | Return None => runOp o w = (Throw NoHandlerFound, w)
        | Throw e => runOp o w = (Throw e, w)
        end
    end.
Proof.
  intros HR.
  destruct (ready_apiHandlers _ _ _ HR) as (l & r & Hl & Hr & Hreach).
  destruct (ready_state _ _ _ HR) as (ls & st & Hls & Hst).
  assert (currentState w = Some st) as Hcs by (by unfold currentState; rewrite Hls).
  assert (currentRegistry w = Some r) as Hcr by (by unfold currentRegistry; rewrite Hl).
  assert (ls < length (states w)) as Hlt by (by eapply lookup_lt_Some).
  assert (l < length (registries w)) as Hlt' by (by eapply lookup_lt_Some).
  exists st, r. split; [done|]. split; [done|]. split; [done|].
  destruct o as [hs | | | req | handler req]; cbn [runOp].
  - destruct (putHandlers_spec s0 r0 w hs HR) as (l' & r1 & r' & Hl' & Hr1 & Hall & _ & Hrun).
    assert (l' = l) as -> by congruence. assert (r1 = r) as -> by congruence.
    exists r'. split; [done|].
    unfold HttpClientStubBackendController.putHandlers. rewrite Hrun. cbn.
    split; [done|]. split; [done|]. split; [|done].
    unfold currentRegistry. cbn. rewrite Hl. cbn. by apply list_lookup_insert_eq.
  - unfold HttpClientStubBackendController.resetHandlers.
    rewrite (resetHandlers_spec s0 r0 w HR). cbn.
    split; [done|]. split; [by unfold currentState; cbn; rewrite Hls|].
    split; [|done]. unfold currentRegistry. cbn. apply lookup_snoc.
  - unfold HttpClientStubBackendController.resetState.
    rewrite (resetState_spec s0 r0 w HR). cbn.
    split; [done|]. split; [unfold currentState; cbn; apply lookup_snoc|].
    split; [|done]. by unfold currentRegistry; cbn; rewrite Hl.
  - rewrite (handle_request_at w l r req Hl Hr).
    destruct (ApiHandlers.match_ r (req_method req) (req_url req)) as [[handler|]|e];
      [|done|done].
    rewrite (subscribe_at w ls st handler req Hls Hst). cbn.
    split; [done|]. split; [|split; [|done]].
    + unfold currentState. cbn. rewrite Hls. cbn. by apply list_lookup_insert_eq.
    + by unfold currentRegistry; cbn; rewrite Hl.
  - rewrite (subscribe_at w ls st handler req Hls Hst). cbn.
    split; [done|]. split; [|split; [|done]].
    + unfold currentState. cbn. rewrite Hls. cbn. by apply list_lookup_insert_eq.
    + by unfold currentRegistry; cbn; rewrite Hl.
Qed.

Lemma runOp_observer s0 r0 w o :
  Ready s0 r0 w →
  ∃ tr, observer (snd (runOp o w)) = observer w ++ tr ∧ Forall wellDelivered tr.
Proof.
  intros HR. destruct (runOp_effect s0 r0 w o HR) as (st & r & _ & _ & _ & H).
  destruct o as [hs | | | req | handler req].
  - destruct H as (r' & _ & _ & _ & _ & ->). exists []. by rewrite app_nil_r.
  - destruct H as (_ & _ & _ & ->). exists []. by rewrite app_nil_r.
  - destruct H as (_ & _ & _ & ->). exists []. by rewrite app_nil_r.
  - destruct (ApiHandlers.match_ r (req_method req) (req_url req)) as [[handler|]|e].
    + destruct H as (_ & _ & _ & ->). eexists. split; [done|]. apply delivery_wellDelivered.
    + rewrite H. exists []. by rewrite app_nil_r.
    + rewrite H. exists []. by rewrite app_nil_r.
  - destruct H as (_ & _ & _ & ->). eexists. split; [done|]. apply delivery_wellDelivered.
Qed.

Lemma runOps_observer s0 r0 ops w :
  Ready s0 r0 w →
  ∃ tr, observer (runOps ops w) = observer w ++ tr ∧ Forall wellDelivered tr.
Proof.
  revert w. induction ops as [|o ops IH]; intros w HR; cbn [runOps].
  - exists []. by rewrite app_nil_r.
  - destruct (runOp_observer s0 r0 w o HR) as (tr1 & E1 & H1).
    destruct (IH _ (Ready_runOp s0 r0 w o HR)) as (tr2 & E2 & H2).
    exists (tr1 ++ tr2). rewrite E2, E1, app_assoc. split; [done|].
    by apply Forall_app_2.
Qed.

(** X8.  No invalid outcome is ever delivered: in every run of a backend set
    up by [setupStubServer], each response passed to [observer.next] is a
    success response with a status in [[200,300)], and whatever is passed to
    [observer.error] is either an error response with a status outside it or
    the error that the subscriber function threw, never a rejected outcome. *)
Theorem delivered_outcomes_valid s hs ops :
  Forall wellDelivered (observer (reached s hs ops)).
Proof.
  destruct (initialize_spec s hs (newWorld TState)) as (r0 & w1 & _ & Hinit & HR & _ & _ & Hobs).
  unfold reached, setupStubServer. rewrite Hinit. cbn [snd].
  destruct (runOps_observer s r0 ops w1 HR) as (tr & -> & Htr).
  by rewrite Hobs.
Qed.

(** X9.  In every run, the two snapshots hold what [initialize] stored: the
    state passed to it and the registry it built.  No operation writes to
    them. *)
Theorem initial_snapshots_never_change s hs ops :
  initialStateSnapshot (reached s hs ops) = Some s ∧
  ∃ r0, ApiHandlers.new hs = Return r0 ∧
        initialRegistrySnapshot (reached s hs ops) = Some r0.
Proof.
  destruct (reached_Ready s hs ops) as (r0 & Hnew & HR).
  destruct (Ready_current s r0 _ HR) as (_ & _ & Hr & Hs).
  split; [done|]. by exists r0.
Qed.

(** X10.  The two resets commute: [resetState] then [resetHandlers] leaves
    the very world that [resetHandlers] then [resetState] leaves. *)
Theorem resets_commute s hs ops :
  snd (HttpClientStubBackend.resetHandlers
         (snd (HttpClientStubBackend.resetState (reached s hs ops)))) =
  snd (HttpClientStubBackend.resetState
         (snd (HttpClientStubBackend.resetHandlers (reached s hs ops)))).
Proof.
  destruct (reached_Ready s hs ops) as (r0 & _ & HR).
  set (w := reached s hs ops) in *.
  rewrite (resetHandlers_spec s r0 _ (Ready_resetState s r0 w HR)).
  rewrite (resetState_spec s r0 _ (Ready_resetHandlers s r0 w HR)).
  rewrite (resetState_spec s r0 w HR), (resetHandlers_spec s r0 w HR).
  reflexivity.
Qed.

Lemma Ready_sameView s0 r0 w1 w2 :
  Ready s0 r0 w1 → Ready s0 r0 w2 →
  currentState w1 = currentState w2 → currentRegistry w1 = currentRegistry w2 →
  sameView w1 w2.
Proof.
  intros HR1 HR2 Hs Hr.
  destruct (Ready_current s0 r0 w1 HR1) as (_ & _ & Hi1 & His1).
  destruct (Ready_current s0 r0 w2 HR2) as (_ & _ & Hi2 & His2).
  split; [done|]. split; [done|]. split; congruence.
Qed.

(** Two worlds with the same view answer an operation alike. *)
Lemma runOp_sameView s0 r0 w1 w2 o :
  Ready s0 r0 w1 → Ready s0 r0 w2 → sameView w1 w2 →
  fst (runOp o w1) = fst (runOp o w2) ∧
  sameView (snd (runOp o w1)) (snd (runOp o w2)) ∧
  ∃ tr, observer (snd (runOp o w1)) = observer w1 ++ tr ∧
        observer (snd (runOp o w2)) = observer w2 ++ tr.
Proof.
  intros HR1 HR2 (Hs & Hr & _ & _).
  destruct (runOp_effect s0 r0 w1 o HR1) as (st & r & Hst1 & Hr1 & _ & H1).
  destruct (runOp_effect s0 r0 w2 o HR2) as (st' & r' & Hst2 & Hr2 & _ & H2).
  assert (st' = st) as -> by congruence. assert (r' = r) as -> by congruence.
  pose proof (Ready_runOp s0 r0 w1 o HR1) as HR1'.
  pose proof (Ready_runOp s0 r0 w2 o HR2) as HR2'.
  assert (∀ (res1 res2 : Result unit) tr,
            res1 = res2 →
            currentState (snd (runOp o w1)) = currentState (snd (runOp o w2)) →
            currentRegistry (snd (runOp o w1)) = currentRegistry (snd (runOp o w2)) →
            observer (snd (runOp o w1)) = observer w1 ++ tr →
            observer (snd (runOp o w2)) = observer w2 ++ tr →
            res1 = res2 ∧ sameView (snd (runOp o w1)) (snd (runOp o w2)) ∧
            ∃ tr, observer (snd (runOp o w1)) = observer w1 ++ tr ∧
                  observer (snd (runOp o w2)) = observer w2 ++ tr) as Hclose.
  { intros res1 res2 tr E Es Er Eo1 Eo2. split; [done|].
    split; [by eapply Ready_sameView|]. by exists tr. }
  destruct o as [hs | | | req | handler req].
  - destruct H1 as (r1 & Hall1 & Hf1 & Hs1 & Hc1 & Ho1).
    destruct H2 as (r2 & Hall2 & Hf2 & Hs2 & Hc2 & Ho2).
    assert (r2 = r1) as -> by congruence.
    apply (Hclose _ _ []); rewrite ?app_nil_r; congruence.
  - destruct H1 as (Hf1 & Hs1 & Hc1 & Ho1). destruct H2 as (Hf2 & Hs2 & Hc2 & Ho2).
    apply (Hclose _ _ []); rewrite ?app_nil_r; congruence.
  - destruct H1 as (Hf1 & Hs1 & Hc1 & Ho1). destruct H2 as (Hf2 & Hs2 & Hc2 & Ho2).
    apply (Hclose _ _ []); rewrite ?app_nil_r; congruence.
  - destruct (ApiHandlers.match_ r (req_method req) (req_url req)) as [[handler|]|e].
    + destruct H1 as (Hf1 & Hs1 & Hc1 & Ho1). destruct H2 as (Hf2 & Hs2 & Hc2 & Ho2).
      eapply Hclose; [congruence|congruence|congruence|exact Ho1|exact Ho2].
    + apply (Hclose _ _ []); rewrite ?app_nil_r, ?H1, ?H2; cbn; congruence.
    + apply (Hclose _ _ []); rewrite ?app_nil_r, ?H1, ?H2; cbn; congruence.
  - destruct H1 as (Hf1 & Hs1 & Hc1 & Ho1). destruct H2 as (Hf2 & Hs2 & Hc2 & Ho2).
    eapply Hclose; [congruence|congruence|congruence|exact Ho1|exact Ho2].
Qed.

Lemma runOps_sameView s0 r0 ops w1 w2 :
  Ready s0 r0 w1 → Ready s0 r0 w2 → sameView w1 w2 →
  outcomes ops w1 = outcomes ops w2 ∧
  sameView (runOps ops w1) (runOps ops w2) ∧
  ∃ tr, observer (runOps ops w1) = observer w1 ++ tr ∧
        observer (runOps ops w2) = observer w2 ++ tr.
Proof.
  revert w1 w2. induction ops as [|o ops IH]; intros w1 w2 HR1 HR2 Hv; cbn [runOps outcomes].
  - split; [done|]. split; [done|]. exists []. by rewrite !app_nil_r.
  - destruct (runOp_sameView s0 r0 w1 w2 o HR1 HR2 Hv) as (Hres & Hv' & tr1 & E1 & E2).
    destruct (IH _ _ (Ready_runOp s0 r0 w1 o HR1) (Ready_runOp s0 r0 w2 o HR2) Hv')
      as (Hout & Hv'' & tr2 & E1' & E2').
    split; [by rewrite Hres, Hout|]. split; [done|].
    exists (tr1 ++ tr2). by rewrite E1', E2', E1, E2, !app_assoc.
Qed.

(** X11.  After [resetState] and [resetHandlers], whatever happened before,
    the backend cannot be told from one just set up with the same arguments:
    any further sequence of operations gives the same results, the same calls
    on the observer, and the same states and registries. *)
Theorem full_reset_is_fresh s hs ops ops' :
  let reset := snd (HttpClientStubBackend.resetHandlers
                      (snd (HttpClientStubBackend.resetState (reached s hs ops)))) in
  let fresh := snd (setupStubServer s hs) in
  outcomes ops' reset = outcomes ops' fresh ∧
  sameView (runOps ops' reset) (runOps ops' fresh) ∧
  ∃ tr, observer (runOps ops' reset) = observer reset ++ tr ∧
        observer (runOps ops' fresh) = observer fresh ++ tr.
Proof.
  intros reset fresh.
  destruct (setup_spec s hs) as (r0 & Hnew & _ & HRf & Hcrf & Hcsf).
  assert (Ready s r0 (reached s hs ops)) as HR by (by apply Ready_runOps).
  pose proof (Ready_resetState s r0 _ HR) as HR1.
  pose proof (Ready_resetHandlers s r0 _ HR1) as HR2. fold reset in HR2.
  apply (runOps_sameView s r0); [done|done|].
  apply (Ready_sameView s r0); [done|done| |].
  - fold fresh in Hcsf. rewrite Hcsf. unfold reset.
    rewrite (resetHandlers_spec s r0 _ HR1). rewrite (resetState_spec s r0 _ HR).
    unfold currentState. cbn. apply lookup_snoc.
  - fold fresh in Hcrf. rewrite Hcrf. unfold reset.
    rewrite (resetHandlers_spec s r0 _ HR1).
    unfold currentRegistry. cbn. apply lookup_snoc.
Qed.

Lemma runOp_above s0 r0 n m w o :
  Ready s0 r0 w → above n m w →
  above n m (snd (runOp o w)) ∧
  take n (states (snd (runOp o w))) = take n (states w) ∧
  take m (registries (snd (runOp o w))) = take m (registries w).
Proof.
  intros HR [Hn Hm].
  destruct (ready_apiHandlers _ _ _ HR) as (l & r & Hl & Hr & Hreach).
  destruct (ready_state _ _ _ HR) as (ls & st & Hls & Hst).
  pose proof (Hn _ Hls) as Hnl. pose proof (Hm _ Hl) as Hml.
  assert (ls < length (states w)) as Hlt by (by eapply lookup_lt_Some).
  assert (l < length (registries w)) as Hlt' by (by eapply lookup_lt_Some).
  destruct o as [hs' | | | req | handler req]; cbn [runOp].
  - destruct (putHandlers_spec s0 r0 w hs' HR) as (l' & r1 & r' & Hl' & _ & _ & _ & Hrun).
    assert (l' = l) as -> by congruence.
    unfold HttpClientStubBackendController.putHandlers. rewrite Hrun. cbn.
    split; [done|]. split; [done|]. by apply take_insert_ge.
  - unfold HttpClientStubBackendController.resetHandlers.
    rewrite (resetHandlers_spec s0 r0 w HR). cbn.
    split; [split; cbn; [done|intros ? [= <-]; lia]|]. split; [done|].
    rewrite take_app_le by lia. done.
  - unfold HttpClientStubBackendController.resetState.
    rewrite (resetState_spec s0 r0 w HR). cbn.
    split; [split; cbn; [intros ? [= <-]; lia|done]|]. split; [|done].
    rewrite take_app_le by lia. done.
  - rewrite (handle_request_at w l r req Hl Hr).
    destruct (ApiHandlers.match_ r (req_method req) (req_url req)) as [[handler|]|e];
      [|done|done].
    rewrite (subscribe_at w ls st handler req Hls Hst). cbn.
    split; [done|]. split; [|done]. by apply take_insert_ge.
  - rewrite (subscribe_at w ls st handler req Hls Hst). cbn.
    split; [done|]. split; [|done]. by apply take_insert_ge.
Qed.

Lemma runOps_above s0 r0 n m ops w :
  Ready s0 r0 w → above n m w →
  take n (states (runOps ops w)) = take n (states w) ∧
  take m (registries (runOps ops w)) = take m (registries w).
Proof.
  revert w. induction ops as [|o ops IH]; intros w HR Ha; cbn [runOps]; [done|].
  destruct (runOp_above s0 r0 n m w o HR Ha) as (Ha' & Es & Er).
  destruct (IH _ (Ready_runOp s0 r0 w o HR) Ha') as (Es' & Er').
  split; congruence.
Qed.

(** [initialize], spelled out. *)
Lemma initialize_world s hs w0 :
  ∃ r0, ApiHandlers.new hs = Return r0 ∧
    HttpClientStubBackend.initialize s hs w0 =
    (Return tt,
     Build_World ((states w0 ++ [s]) ++ [s]) ((registries w0 ++ [r0]) ++ [r0])
       (Build_HttpClientStubBackend (Some (length (registries w0))) (Some (length (states w0)))
          (Some (length (states w0 ++ [s]))) (Some (length (registries w0 ++ [r0]))))
       (observer w0)).
Proof.
  destruct (new_Reachable hs) as (r0 & Hnew & _). exists r0. split; [done|].
  unfold HttpClientStubBackend.initialize, bind, lift, allocState, allocRegistry,
    HttpClientStubBackend.setState, HttpClientStubBackend.setInitialState,
    HttpClientStubBackend.setApiHandlers, HttpClientStubBackend.setInitialHandlers,
    setThis, getThis, cloneRegistry, readRegistry, defined, bind, ret.
  cbn. rewrite Hnew. cbn. by rewrite lookup_snoc.
Qed.

(** X12.  [initialize] and everything after it work on copies: whatever the
    world held before the call (the caller's own state object among it), every
    state object and every registry object that existed then is, after
    [initialize] and any sequence of operations, what it was. *)
Theorem earlier_objects_untouched s hs w0 ops :
  take (length (states w0))
       (states (runOps ops (snd (HttpClientStubBackend.initialize s hs w0)))) = states w0 ∧
  take (length (registries w0))
       (registries (runOps ops (snd (HttpClientStubBackend.initialize s hs w0)))) =
  registries w0.
Proof.
  destruct (initialize_spec s hs w0) as (r0 & w1 & Hnew & Hinit & HR & _).
  destruct (initialize_world s hs w0) as (r0' & Hnew' & Hw).
  assert (r0' = r0) as -> by congruence.
  rewrite Hinit in Hw. injection Hw as Hw. rewrite Hinit. cbn [snd].
  destruct (runOps_above s r0 (length (states w0)) (length (registries w0)) ops w1 HR)
    as (Es & Er).
  { rewrite Hw. split; cbn; intros ? [= <-]; lia. }
  rewrite Es, Er, Hw. cbn.
  rewrite <- !app_assoc. by rewrite !take_app_length.
Qed.

(** X13.  A handler built by a factory of [handlerBuilder] and registered by
    [setupStubServer] answers the method of its factory on the path it was
    given, and nothing else: the lookup of any other method of the seven, or
    of any other url, finds no handler. *)
Theorem handlerBuilder_round_trip s (m m' : HttpMethod) (path : string)
    (fn : HandlerFn TState) u :
  matchCurrent (snd (setupStubServer s [factoryOf m path fn])) (methodName m') u =
  if decide (m = m' ∧ path = u) then Return (Some (factoryOf m path fn))
  else Return None.
Proof.
  destruct (setup_spec s [factoryOf m path fn]) as (r & Hnew & _ & _ & Hcur & _).
  unfold matchCurrent. rewrite Hcur.
  rewrite (match_after_putAll _ ApiHandlers.empty r _ u reachable_empty Hnew).
  rewrite match_empty, methodName_own.
  assert (factoryOf m path fn = Build_ApiHandler m path fn) as -> by (by destruct m).
  unfold lastFor. rewrite filter_cons, filter_nil. cbn [method url].
  destruct (decide (m = m' ∧ path = u)) as [[-> ->]|Hne].
  - by rewrite decide_True.
  - rewrite decide_False; [done|]. intros [Hm ->]. apply Hne.
    split; [by apply methodName_inj|done].
Qed.

(** [initialize] of the first backend, spelled out. *)
Lemma testing_initialize_world (l : loc) hs w :
  ∃ r0, ApiHandlers.new hs = Return r0 ∧
    HttpClientTestingBackend.initialize l hs w =
    (Return tt,
     Build_World (states w) (registries w ++ [r0])
       (Build_HttpClientStubBackend (Some (length (registries w))) (Some l)
          (initialState (this w)) (initialHandlers (this w)))
       (observer w)).
Proof.
  destruct (new_Reachable hs) as (r0 & Hnew & _). exists r0. split; [done|].
  unfold HttpClientTestingBackend.initialize, bind, lift, allocRegistry,
    HttpClientStubBackend.setState, HttpClientStubBackend.setApiHandlers, setThis.
  cbn. by rewrite Hnew.
Qed.

(** X14.  The first backend keeps the caller's state object: [initialize]
    makes no copy, and a request that finds a handler leaves the handler's
    changes in the very object that was passed to [initialize]. *)
Theorem testing_backend_shares_state (l : loc) (v : TState) hs w req handler :
  states w !! l = Some v →
  matchCurrent (snd (HttpClientTestingBackend.initialize l hs w))
    (req_method req) (req_url req) = Return (Some handler) →
  fst (HttpClientTestingBackend.initialize l hs w) = Return tt ∧
  states (snd (HttpClientTestingBackend.initialize l hs w)) = states w ∧
  state (this (snd (HttpClientTestingBackend.initialize l hs w))) = Some l ∧
  states (snd (HttpClientTestingBackend.request req
                 (snd (HttpClientTestingBackend.initialize l hs w)))) !! l
    = Some (snd (handle handler req responseBuilder v)).
Proof.
  intros Hl. destruct (testing_initialize_world l hs w) as (r0 & Hnew & ->). cbn [fst snd].
  unfold matchCurrent, currentRegistry. cbn. rewrite lookup_snoc. intros Hm.
  split; [done|]. split; [done|]. split; [done|].
  unfold HttpClientTestingBackend.request.
  rewrite (handle_request_at _ (length (registries w)) r0 req); [|done|by cbn; apply lookup_snoc].
  rewrite Hm.
  rewrite (subscribe_at _ l v handler req); [|done|done]. cbn.
  apply list_lookup_insert_eq. by eapply lookup_lt_Some.
Qed.

(** X15.  The first backend looks handlers up as the second does: after its
    [initialize] with the list [hs], a lookup gives the last handler of [hs]
    for the pair; with none, a [TypeError] for a method string that names an
    inherited property and [undefined] for any other. *)
Theorem testing_initialize_lookup (l : loc) hs w k u :
  matchCurrent (snd (HttpClientTestingBackend.initialize l hs w)) k u =
  match lastFor k u hs with
  | Some h => Return (Some h)
  | None => if bool_decide (k ∈ objectPrototypeKeys) then Throw TypeError else Return None
  end.
Proof.
  destruct (testing_initialize_world l hs w) as (r0 & Hnew & ->). cbn [snd].
  unfold matchCurrent, currentRegistry. cbn. rewrite lookup_snoc.
  rewrite (match_after_putAll hs ApiHandlers.empty r0 k u reachable_empty Hnew).
  by rewrite match_empty.
Qed.



(** X17.  [resetState] twice in a row is [resetState] once, for all a client
    can tell: both return, and the state, the registry and the snapshots are
    the same after the second as after the first. *)
Theorem resetState_idempotent s hs ops :
  let w1 := snd (HttpClientStubBackend.resetState (reached s hs ops)) in
  let w2 := snd (HttpClientStubBackend.resetState w1) in
  fst (HttpClientStubBackend.resetState (reached s hs ops)) = Return tt ∧
  fst (HttpClientStubBackend.resetState w1) = Return tt ∧
  currentState w1 = Some s ∧ sameView w2 w1.
Proof.
  intros w1 w2. destruct (reached_Ready s hs ops) as (r0 & _ & HR).
  pose proof (Ready_resetState s r0 _ HR) as HR1. fold w1 in HR1.
  pose proof (Ready_resetState s r0 _ HR1) as HR2. fold w2 in HR2.
  destruct (runOp_effect s r0 _ ResetState HR) as (st & r & _ & _ & _ & Hf & Hs & Hr & _).
  destruct (runOp_effect s r0 _ ResetState HR1) as (st' & r' & _ & Hr' & _ & Hf' & Hs' & Hr'' & _).
  cbn [runOp] in *. unfold HttpClientStubBackendController.resetState in *.
  fold w1 in Hs, Hr, Hf', Hs', Hr''|-*. fold w2 in Hs', Hr''.
  split; [done|]. split; [done|]. split; [done|].
  apply (Ready_sameView s r0); [done|done|congruence|congruence].
Qed.

Lemma match_upperCase r k u :
  hasLowerCase k = false → ∃ found, ApiHandlers.match_ r k u = Return found.
Proof.
  intros Hk. unfold ApiHandlers.match_, getProperty.
  destruct (handlersByMethod r !! k); [eauto|].
  rewrite (upperCase_own k Hk). eauto.
Qed.

(** X18.  Once the backend is initialized, the only error [handle] itself
    raises is 'No handler found for this request': for every request it either
    throws that, or returns the subscriber function of the handler the lookup
    found. *)
Theorem handle_result_shape s hs ops req :
  fst (HttpClientStubBackend.handle req (reached s hs ops)) = Throw NoHandlerFound ∨
  ∃ handler,
    matchCurrent (reached s hs ops) (req_method req) (req_url req) = Return (Some handler) ∧
    fst (HttpClientStubBackend.handle req (reached s hs ops)) =
    Return (HttpClientStubBackend.subscriber handler req).
Proof.
  destruct (reached_Ready s hs ops) as (r0 & _ & HR).
  set (w := reached s hs ops) in *.
  destruct (handle_spec s r0 w req HR) as (r & Hcur & _ & ->).
  unfold matchCurrent. rewrite Hcur.
  destruct (match_upperCase r (req_method req) (req_url req) (req_method_upper req))
    as ([handler|] & ->); [right; by exists handler | by left].
Qed.

End Further.

(** ** The further properties at work on the scenario of the test suite *)

Section FurtherChecks.
Import Scenario.

Lemma uninitialized_backend_witness :
  apiHandlers (this (newWorld ServerState)) = None ∧
  HttpClientStubBackend.request GET_users (newWorld ServerState) =
    (Throw TypeError, newWorld ServerState).
Proof.
  split; [reflexivity|].
  apply (uninitialized_backend (newWorld ServerState) GET_users getUsers [] eq_refl).
Defined.

Lemma putHandlers_same_key_absorbs_witness :
  sameKey pushUser putUsers ∧
  HttpClientStubBackend.putHandlers [pushUser; putUsers]
    (reached initialState [getUsers; getProjects] [Request GET_users]) =
  HttpClientStubBackend.putHandlers [putUsers]
    (reached initialState [getUsers; getProjects] [Request GET_users]).
Proof.
  assert (sameKey pushUser putUsers) as Hkey by (split; reflexivity).
  split; [exact Hkey|].
  apply (putHandlers_same_key_absorbs initialState [getUsers; getProjects]
           [Request GET_users] pushUser putUsers Hkey).
Defined.

Lemma testing_backend_shares_state_witness :
  states (Build_World [initialState] [] (Build_HttpClientStubBackend None None None None) [])
    !! 0 = Some initialState ∧
  states (snd (HttpClientTestingBackend.request GET_users
                 (snd (HttpClientTestingBackend.initialize 0 [pushUser; getProjects]
                         (Build_World [initialState] []
                            (Build_HttpClientStubBackend None None None None) [])))))
    !! 0 =
  Some {| users := [Alice; Bob; Override]; projects := projects initialState |}.
Proof.
  split; [reflexivity|].
  apply (testing_backend_shares_state 0 initialState [pushUser; getProjects]
           (Build_World [initialState] [] (Build_HttpClientStubBackend None None None None) [])
           GET_users pushUser eq_refl eq_refl).
Defined.

End FurtherChecks.
